(** * Config extractor/relay of the Python worker runtime

    Shallow embedding of [src/runtime/python/get_config.py]: the script that
    loads one worker module, takes its [config] attribute, deletes the
    [middleware] entry and relays the rest as one JSON line to the parent
    process.

    Conventions of the embedding
    - a Python [str] is the list of its code points ([pystr]); [bytes] is a
      list of octets;
    - Python objects are the terms of [pyval]; cyclic objects are outside
      this universe, and so are the limits of the interpreter on nesting
      depth and on the digits of an [int];
    - the interpreter services the script calls ([json.dumps], [int],
      [str.encode], [repr], [print], [os.write]) are modelled after CPython;
      what depends on the machine (platform name, environment, file system,
      importer, descriptor table) is read from a record [Env];
    - a write to a sink delivers the whole buffer or raises and delivers
      nothing; the top-level code of a worker has no effect on the process
      besides the namespace it builds or the exception it raises;
    - the script runs in an exception/state monad [Py] over the mutable part
      of the process, [World]. *)

From Stdlib Require Import ZArith List Bool String Ascii Lia.
From Stdlib Require Import DecimalString.
Import ListNotations.

#[local] Set Warnings "-register-all".
Local Open Scope Z_scope.

(** ** Text and bytes *)

Definition pystr := list Z.
Definition pybytes := list Z.

(** A literal of the source, as code points. *)
Definition lit (s : string) : pystr :=
  map (fun a => Z.of_N (N_of_ascii a)) (list_ascii_of_string s).

Definition pystr_eqb (a b : pystr) : bool :=
  if list_eq_dec Z.eq_dec a b then true else false.

Definition NL : Z := 10.

(** [sep.join(parts)] *)
Fixpoint join (sep : pystr) (parts : list pystr) : pystr :=
  match parts with
  | [] => []
  | [p] => p
  | p :: rest => p ++ sep ++ join sep rest
  end.

(** Lower-case hexadecimal digit of the low nibble of [n]. *)
Definition hex_digit (n : Z) : Z :=
  let d := Z.land n 15 in
  if d <? 10 then 48 + d else 87 + d.

(** ['{:04x}'.format(n)] for [0 <= n < 65536]. *)
Definition hex4 (n : Z) : pystr :=
  [hex_digit (Z.shiftr n 12); hex_digit (Z.shiftr n 8);
   hex_digit (Z.shiftr n 4); hex_digit n].

Definition hex2 (n : Z) : pystr :=
  [hex_digit (Z.shiftr n 4); hex_digit n].

Definition hex8 (n : Z) : pystr :=
  hex4 (Z.shiftr n 16) ++ hex4 n.

(** [int.__repr__]: decimal digits, with a leading minus sign. *)
Definition int_repr (z : Z) : pystr :=
  lit (NilZero.string_of_int (Z.to_int z)).

(** [str.encode("utf-8")] on one code point; a lone surrogate cannot be
    encoded. *)
Definition utf8_char (c : Z) : option pybytes :=
  if c <? 128 then Some [c]
  else if c <? 2048 then
    Some [Z.lor 192 (Z.shiftr c 6); Z.lor 128 (Z.land c 63)]
  else if (55296 <=? c) && (c <=? 57343) then None
  else if c <? 65536 then
    Some [Z.lor 224 (Z.shiftr c 12);
          Z.lor 128 (Z.land (Z.shiftr c 6) 63);
          Z.lor 128 (Z.land c 63)]
  else
    Some [Z.lor 240 (Z.shiftr c 18);
          Z.lor 128 (Z.land (Z.shiftr c 12) 63);
          Z.lor 128 (Z.land (Z.shiftr c 6) 63);
          Z.lor 128 (Z.land c 63)].

Fixpoint utf8_encode (s : pystr) : option pybytes :=
  match s with
  | [] => Some []
  | c :: r =>
      match utf8_char c, utf8_encode r with
      | Some b, Some bs => Some (b ++ bs)
      | _, _ => None
      end
  end.

(** [needle in haystack] for strings, as a proposition. *)
Definition occurs_in (needle hay : pystr) : Prop :=
  exists pre post, hay = pre ++ needle ++ post.

(** Characters that JSON text made by [json.dumps] may contain: the
    printable ASCII range. *)
Definition printable_ascii (c : Z) : Prop := 32 <= c <= 126.

(** Characters of [int.__repr__]. *)
Definition digit_or_minus (c : Z) : Prop := c = 45 \/ 48 <= c <= 57.

(** ** Exceptions

    What the script can observe of an exception is whether its class derives
    from [Exception] (only those are caught by [except Exception]) and the
    text [str(error)].  [SystemExit] carries the exit code, [None] counting
    as 0; [SystemExitText] is a [SystemExit] whose code is another object,
    known by its [str].  They derive from [BaseException] only, as do
    [KeyboardInterrupt] and [GeneratorExit]. *)

Inductive exc : Type :=
| Exception (cls : pystr) (msg : pystr)
| SystemExit (code : Z)
| SystemExitText (text : pystr)
| BaseException (cls : pystr) (msg : pystr).

(** [isinstance(error, Exception)] *)
Definition is_Exception (e : exc) : bool :=
  match e with
  | Exception _ _ => true
  | SystemExit _ | SystemExitText _ | BaseException _ _ => false
  end.

Inductive result (A : Type) : Type :=
| Ok (a : A)
| Raise (e : exc).
Arguments Ok {A} a.
Arguments Raise {A} e.

Definition TypeError (msg : pystr) : exc := Exception (lit "TypeError") msg.
Definition ValueError (msg : pystr) : exc := Exception (lit "ValueError") msg.
Definition KeyError (msg : pystr) : exc := Exception (lit "KeyError") msg.
Definition OSError (msg : pystr) : exc := Exception (lit "OSError") msg.
Definition ImportError (msg : pystr) : exc := Exception (lit "ImportError") msg.
Definition AttributeError (msg : pystr) : exc :=
  Exception (lit "AttributeError") msg.
Definition UnicodeEncodeError (msg : pystr) : exc :=
  Exception (lit "UnicodeEncodeError") msg.

(** ** Python objects *)

(** A [float].  A finite one is known by the characters of its [repr]:
    digits, the point, the exponent mark and signs. *)
Inductive fchar : Type :=
| Fdigit (n : Z)
| Fdot
| Fexp
| Fplus
| Fminus.

Inductive pyfloat : Type :=
| Finite (repr : list fchar)
| NaN
| Infinity
| NegInfinity.

Definition fchar_code (c : fchar) : Z :=
  match c with
  | Fdigit n => 48 + n mod 10
  | Fdot => 46
  | Fexp => 101
  | Fplus => 43
  | Fminus => 45
  end.

(** [float.__repr__], which [json.dumps] uses for finite floats, and the
    tokens it writes for the others when [allow_nan] is on. *)
Definition float_json (f : pyfloat) : pystr :=
  match f with
  | Finite r => map fchar_code r
  | NaN => lit "NaN"
  | Infinity => lit "Infinity"
  | NegInfinity => lit "-Infinity"
  end.

(** Dictionary keys.  [KOther t] is a hashable object of type [t] that is
    none of [str], [int], [bool], [float], [None] (a tuple, a frozenset,
    bytes). *)
Inductive pykey : Type :=
| KStr (s : pystr)
| KInt (n : Z)
| KBool (b : bool)
| KFloat (f : pyfloat)
| KNone
| KOther (type_name : pystr).

(** [PyObject t] is an object of any other type [t]: a function, a class
    instance, a set.  A [dict] keeps its items in insertion order, which is
    the order [json.dumps] writes them in. *)
Inductive pyval : Type :=
| PyNone
| PyBool (b : bool)
| PyInt (n : Z)
| PyFloat (f : pyfloat)
| PyStr (s : pystr)
| PyList (elems : list pyval)
| PyTuple (elems : list pyval)
| PyDict (items : list (pykey * pyval))
| PyObject (type_name : pystr).

Definition pydict := list (pykey * pyval).

(** Induction over Python objects, with the hypothesis available for every
    element and every item value. *)
Fixpoint pyval_nested_ind (P : pyval -> Prop)
    (Hnone : P PyNone) (Hbool : forall b, P (PyBool b))
    (Hint : forall n, P (PyInt n)) (Hfloat : forall f, P (PyFloat f))
    (Hstr : forall s, P (PyStr s))
    (Hlist : forall l, Forall P l -> P (PyList l))
    (Htuple : forall l, Forall P l -> P (PyTuple l))
    (Hdict : forall d, Forall (fun kv => P (snd kv)) d -> P (PyDict d))
    (Hobject : forall t, P (PyObject t))
    (v : pyval) {struct v} : P v :=
  let rec :=
    pyval_nested_ind P Hnone Hbool Hint Hfloat Hstr Hlist Htuple Hdict
      Hobject in
  let all :=
    fix all (l : list pyval) : Forall P l :=
      match l with
      | [] => Forall_nil P
      | x :: r => Forall_cons x (rec x) (all r)
      end in
  match v with
  | PyNone => Hnone
  | PyBool b => Hbool b
  | PyInt n => Hint n
  | PyFloat f => Hfloat f
  | PyStr s => Hstr s
  | PyList l => Hlist l (all l)
  | PyTuple l => Htuple l (all l)
  | PyDict d =>
      Hdict d ((fix items (d : pydict) : Forall (fun kv => P (snd kv)) d :=
                  match d with
                  | [] => Forall_nil _
                  | kv :: r => Forall_cons kv (rec (snd kv)) (items r)
                  end) d)
  | PyObject t => Hobject t
  end.

(** [isinstance(v, dict)] *)
Definition is_dict (v : pyval) : bool :=
  match v with PyDict _ => true | _ => false end.

(** A [str] compares equal to a key only when the key is a [str] with the
    same characters. *)
Definition key_is (name : pystr) (k : pykey) : bool :=
  match k with
  | KStr s => pystr_eqb name s
  | _ => false
  end.

(** [name in d] *)
Definition dict_contains (name : pystr) (d : pydict) : bool :=
  existsb (fun kv => key_is name (fst kv)) d.

(** [d[name]], as far as it is defined. *)
Fixpoint dict_get (name : pystr) (d : pydict) : option pyval :=
  match d with
  | [] => None
  | (k, v) :: r => if key_is name k then Some v else dict_get name r
  end.

(** [del d[name]]: the item leaves, the others keep their order.  The keys
    of a [dict] are pairwise unequal, so one item at most goes. *)
Definition dict_del (name : pystr) (d : pydict) : pydict :=
  filter (fun kv => negb (key_is name (fst kv))) d.

(** ** [json.dumps] with its default options

    The encoder walks the object left to right and stops at the first value
    it cannot encode ([to_json]); the text is laid out with the separators
    [", "] and [": "] and with [ensure_ascii] on ([render]). *)

Inductive json : Type :=
| JNull
| JBool (b : bool)
| JNum (n : Z)
| JFloat (f : pyfloat)
| JStr (s : pystr)
| JArr (elems : list json)
| JObj (members : list (pystr * json)).

(** Induction over JSON values, with the hypothesis available for every
    element and every member value. *)
Fixpoint json_nested_ind (P : json -> Prop)
    (Hnull : P JNull) (Hbool : forall b, P (JBool b))
    (Hnum : forall n, P (JNum n)) (Hfloat : forall f, P (JFloat f))
    (Hstr : forall s, P (JStr s))
    (Harr : forall l, Forall P l -> P (JArr l))
    (Hobj : forall m, Forall (fun kv => P (snd kv)) m -> P (JObj m))
    (j : json) {struct j} : P j :=
  let rec := json_nested_ind P Hnull Hbool Hnum Hfloat Hstr Harr Hobj in
  match j with
  | JNull => Hnull
  | JBool b => Hbool b
  | JNum n => Hnum n
  | JFloat f => Hfloat f
  | JStr s => Hstr s
  | JArr l =>
      Harr l ((fix all (l : list json) : Forall P l :=
                 match l with
                 | [] => Forall_nil P
                 | x :: r => Forall_cons x (rec x) (all r)
                 end) l)
  | JObj m =>
      Hobj m ((fix all (m : list (pystr * json))
                 : Forall (fun kv => P (snd kv)) m :=
                 match m with
                 | [] => Forall_nil _
                 | kv :: r => Forall_cons kv (rec (snd kv)) (all r)
                 end) m)
  end.

Definition not_serializable (type_name : pystr) : exc :=
  TypeError (lit "Object of type " ++ type_name
             ++ lit " is not JSON serializable").

Definition bad_key (type_name : pystr) : exc :=
  TypeError (lit "keys must be str, int, float, bool or None, not "
             ++ type_name).

(** The member name a dictionary key is written under. *)
Definition key_name (k : pykey) : result pystr :=
  match k with
  | KStr s => Ok s
  | KInt n => Ok (int_repr n)
  | KBool true => Ok (lit "true")
  | KBool false => Ok (lit "false")
  | KFloat f => Ok (float_json f)
  | KNone => Ok (lit "null")
  | KOther t => Raise (bad_key t)
  end.

Fixpoint to_json (v : pyval) : result json :=
  match v with
  | PyNone => Ok JNull
  | PyBool b => Ok (JBool b)
  | PyInt n => Ok (JNum n)
  | PyFloat f => Ok (JFloat f)
  | PyStr s => Ok (JStr s)
  | PyList l | PyTuple l =>
      let fix elems (l : list pyval) : result (list json) :=
        match l with
        | [] => Ok []
        | x :: r =>
            match to_json x with
            | Raise e => Raise e
            | Ok j =>
                match elems r with
                | Raise e => Raise e
                | Ok js => Ok (j :: js)
                end
            end
        end in
      match elems l with
      | Raise e => Raise e
      | Ok js => Ok (JArr js)
      end
  | PyDict d =>
      let fix members (d : pydict) : result (list (pystr * json)) :=
        match d with
        | [] => Ok []
        | (k, x) :: r =>
            match key_name k with
            | Raise e => Raise e
            | Ok name =>
                match to_json x with
                | Raise e => Raise e
                | Ok j =>
                    match members r with
                    | Raise e => Raise e
                    | Ok ms => Ok ((name, j) :: ms)
                    end
                end
            end
        end in
      match members d with
      | Raise e => Raise e
      | Ok ms => Ok (JObj ms)
      end
  | PyObject t => Raise (not_serializable t)
  end.

(** The members of a dictionary, as [to_json] computes them. *)
Fixpoint to_members (d : pydict) : result (list (pystr * json)) :=
  match d with
  | [] => Ok []
  | (k, x) :: r =>
      match key_name k with
      | Raise e => Raise e
      | Ok name =>
          match to_json x with
          | Raise e => Raise e
          | Ok j =>
              match to_members r with
              | Raise e => Raise e
              | Ok ms => Ok ((name, j) :: ms)
              end
          end
      end
  end.

(** The elements of a list or tuple, as [to_json] computes them. *)
Fixpoint to_elems (l : list pyval) : result (list json) :=
  match l with
  | [] => Ok []
  | x :: r =>
      match to_json x with
      | Raise e => Raise e
      | Ok j =>
          match to_elems r with
          | Raise e => Raise e
          | Ok js => Ok (j :: js)
          end
      end
  end.

(** One character of a string, under [ensure_ascii]. *)
Definition escape_char (c : Z) : pystr :=
  if c =? 92 then [92; 92]
  else if c =? 34 then [92; 34]
  else if c =? 8 then [92; 98]
  else if c =? 12 then [92; 102]
  else if c =? 10 then [92; 110]
  else if c =? 13 then [92; 114]
  else if c =? 9 then [92; 116]
  else if (32 <=? c) && (c <=? 126) then [c]
  else if c <? 65536 then [92; 117] ++ hex4 c
  else
    let n := c - 65536 in
    let s1 := Z.lor 55296 (Z.land (Z.shiftr n 10) 1023) in
    let s2 := Z.lor 56320 (Z.land n 1023) in
    [92; 117] ++ hex4 s1 ++ [92; 117] ++ hex4 s2.

Definition encode_basestring_ascii (s : pystr) : pystr :=
  [34] ++ flat_map escape_char s ++ [34].

Fixpoint render (j : json) : pystr :=
  match j with
  | JNull => lit "null"
  | JBool true => lit "true"
  | JBool false => lit "false"
  | JNum n => int_repr n
  | JFloat f => float_json f
  | JStr s => encode_basestring_ascii s
  | JArr l => lit "[" ++ join (lit ", ") (map render l) ++ lit "]"
  | JObj m =>
      lit "{"
      ++ join (lit ", ")
           (map (fun kv => encode_basestring_ascii (fst kv) ++ lit ": "
                           ++ render (snd kv)) m)
      ++ lit "}"
  end.

Definition json_dumps (v : pyval) : result pystr :=
  match to_json v with
  | Raise e => Raise e
  | Ok j => Ok (render j)
  end.

(** ** The machine the script runs on

    Everything the script reads from outside itself.  The two Unicode tables
    are consulted for code points beyond ASCII only.  [exec_module] stands
    for the import system running the worker's top-level code: it yields the
    module's namespace or the exception that escaped, and may depend on the
    search path and on the package name set before it runs.  A worker's
    top-level code is taken to have no other effect on the process.
    [fd_fault] and [stdout_fault] give the [str] of the [OSError] a write
    fails with; a failing write delivers nothing and a successful one
    delivers the whole buffer. *)

Definition namespace := list (pystr * pyval).

Record Env : Type := {
  platform_system : pystr;
  environ : list (pystr * pystr);
  decimal_value : Z -> option Z;
  isprintable : Z -> bool;
  abspath : pystr -> pystr;
  dirname : pystr -> pystr;
  basename : pystr -> pystr;
  splitext_root : pystr -> pystr;
  spec_has_loader : pystr -> pystr -> bool;
  exec_module : list pystr -> pystr -> pystr -> result namespace;
  fd_fault : Z -> option pystr;
  stdout_fault : option pystr
}.

(** *** [int(s)] in base 10

    Below 128 only the C blanks (tab to carriage return, and the space) are
    stripped; beyond, the Unicode spaces are. *)

Definition is_space (c : Z) : bool :=
  ((9 <=? c) && (c <=? 13)) || (c =? 32)
  || (c =? 133) || (c =? 160) || (c =? 5760)
  || ((8192 <=? c) && (c <=? 8202))
  || (c =? 8232) || (c =? 8233) || (c =? 8239) || (c =? 8287)
  || (c =? 12288).

Fixpoint lstrip (s : pystr) : pystr :=
  match s with
  | [] => []
  | c :: r => if is_space c then lstrip r else s
  end.

Definition strip (s : pystr) : pystr := rev (lstrip (rev (lstrip s))).

Definition digit_of (env : Env) (c : Z) : option Z :=
  if (48 <=? c) && (c <=? 57) then Some (c - 48)
  else if c <? 128 then None
  else decimal_value env c.

(** Digits, with single underscores allowed between two digits. *)
Fixpoint digits (env : Env) (acc : Z) (after_digit : bool) (s : pystr)
  : option Z :=
  match s with
  | [] => if after_digit then Some acc else None
  | c :: r =>
      if c =? 95 then
        if after_digit then digits env acc false r else None
      else
        match digit_of env c with
        | Some d => digits env (10 * acc + d) true r
        | None => None
        end
  end.

Definition py_int (env : Env) (s : pystr) : option Z :=
  match strip s with
  | [] => None
  | c :: r =>
      if c =? 45 then option_map Z.opp (digits env 0 false r)
      else if c =? 43 then digits env 0 false r
      else digits env 0 false (c :: r)
  end.

(** *** [repr(s)] of a [str] *)

Definition repr_char (env : Env) (quote c : Z) : pystr :=
  if (c =? quote) || (c =? 92) then [92; c]
  else if c =? 9 then [92; 116]
  else if c =? 10 then [92; 110]
  else if c =? 13 then [92; 114]
  else if (c <? 32) || (c =? 127) then [92; 120] ++ hex2 c
  else if c <? 127 then [c]
  else if isprintable env c then [c]
  else if c <? 256 then [92; 120] ++ hex2 c
  else if c <? 65536 then [92; 117] ++ hex4 c
  else [92; 85] ++ hex8 c.

Definition py_repr (env : Env) (s : pystr) : pystr :=
  let quote :=
    if existsb (Z.eqb 39) s && negb (existsb (Z.eqb 34) s) then 34 else 39 in
  [quote] ++ flat_map (repr_char env quote) s ++ [quote].

(** ** The process

    [written] lists the writes that reached a sink, oldest first;
    [stdout_buffer] holds what [sys.stdout.buffer] has accepted and not yet
    flushed; [stderr] is the text printed on the error stream; [module_ns]
    is the namespace of the module object once its code has run.  The
    [config] object lives there: a change made through any reference to it
    is a change of this entry. *)

Inductive sink : Type :=
| Stdout
| Descriptor (fd : Z).

(** How the streams behave at the moment, as the operating system has
    them.  [fd_takes fd n] is the count [os.write] returns when [n] bytes
    are offered to descriptor [fd]: [n] when all are taken, less for a
    short write.  [stdout_write_fault] is the [OSError] a write to
    [sys.stdout.buffer] raises, if it does; [stdout_leak] is the number of
    buffered bytes that still get through when a write or a flush of
    standard output fails; [exit_flush_fault] is what the interpreter
    prints when its flush of standard output at shutdown fails. *)
Record Device : Type := {
  fd_takes : Z -> nat -> nat;
  stdout_write_fault : option pystr;
  stdout_leak : nat;
  exit_flush_fault : option pystr
}.

(** Streams that take whatever they are given. *)
Definition sound : Device :=
  {| fd_takes := fun _ n => n;
     stdout_write_fault := None;
     stdout_leak := 0%nat;
     exit_flush_fault := None |}.

Record World : Type := {
  sys_path : list pystr;
  module_ns : option namespace;
  written : list (sink * pybytes);
  stdout_buffer : pybytes;
  stderr : pystr;
  device : Device
}.

(** [data] reaches [s]; an empty delivery leaves no trace. *)
Definition deliver (s : sink) (data : pybytes) (l : list (sink * pybytes))
  : list (sink * pybytes) :=
  match data with
  | [] => l
  | _ => l ++ [(s, data)]
  end.

Definition with_sys_path (p : list pystr) (w : World) : World :=
  {| sys_path := p; module_ns := module_ns w; written := written w;
     stdout_buffer := stdout_buffer w; stderr := stderr w;
     device := device w |}.

Definition with_module (ns : namespace) (w : World) : World :=
  {| sys_path := sys_path w; module_ns := Some ns; written := written w;
     stdout_buffer := stdout_buffer w; stderr := stderr w;
     device := device w |}.

Definition with_written (l : list (sink * pybytes)) (w : World) : World :=
  {| sys_path := sys_path w; module_ns := module_ns w; written := l;
     stdout_buffer := stdout_buffer w; stderr := stderr w;
     device := device w |}.

Definition with_stdout_buffer (b : pybytes) (w : World) : World :=
  {| sys_path := sys_path w; module_ns := module_ns w; written := written w;
     stdout_buffer := b; stderr := stderr w;
     device := device w |}.

Definition with_stderr (s : pystr) (w : World) : World :=
  {| sys_path := sys_path w; module_ns := module_ns w; written := written w;
     stdout_buffer := stdout_buffer w; stderr := s;
     device := device w |}.

Definition Py (A : Type) : Type := World -> result A * World.

Definition ret {A} (a : A) : Py A := fun w => (Ok a, w).
Definition raise {A} (e : exc) : Py A := fun w => (Raise e, w).
Definition bind {A B} (m : Py A) (k : A -> Py B) : Py B :=
  fun w =>
    match m w with
    | (Ok a, w') => k a w'
    | (Raise e, w') => (Raise e, w')
    end.

Notation "x <- m ;; k" := (bind m (fun x => k))
  (at level 61, m at next level, right associativity).
Notation "m ;;; k" := (bind m (fun _ => k))
  (at level 61, right associativity).

(** [try: body  except Exception as error: handler(error)] *)
Definition try_except_Exception {A} (body : Py A) (handler : exc -> Py A)
  : Py A :=
  fun w =>
    match body w with
    | (Ok a, w') => (Ok a, w')
    | (Raise e, w') =>
        if is_Exception e then handler e w' else (Raise e, w')
    end.

Definition lift {A} (r : result A) : Py A := fun w => (r, w).

Definition when (b : bool) (m : Py unit) : Py unit :=
  if b then m else ret tt.

(** *** Primitives the script calls *)

Fixpoint ns_get (name : pystr) (ns : namespace) : option pyval :=
  match ns with
  | [] => None
  | (n, v) :: r => if pystr_eqb name n then Some v else ns_get name r
  end.

Fixpoint ns_set (name : pystr) (v : pyval) (ns : namespace) : namespace :=
  match ns with
  | [] => [(name, v)]
  | (n, x) :: r =>
      if pystr_eqb name n then (n, v) :: r else (n, x) :: ns_set name v r
  end.

Definition get_sys_path : Py (list pystr) := fun w => (Ok (sys_path w), w).

(** [sys.path.insert(0, d)] *)
Definition sys_path_insert0 (d : pystr) : Py unit :=
  fun w => (Ok tt, with_sys_path (d :: sys_path w) w).

(** [module_from_spec], the assignment of [__package__], [exec_module] *)
Definition load_module (env : Env) (package file_path : pystr) : Py unit :=
  fun w =>
    match exec_module env (sys_path w) package file_path with
    | Raise e => (Raise e, w)
    | Ok ns => (Ok tt, with_module ns w)
    end.

Definition the_module (w : World) : namespace :=
  match module_ns w with Some ns => ns | None => [] end.

(** [hasattr(module, name)] *)
Definition module_hasattr (name : pystr) : Py bool :=
  fun w =>
    (Ok (match ns_get name (the_module w) with Some _ => true | None => false end),
     w).

(** [getattr(module, name)] *)
Definition module_getattr (name : pystr) : Py pyval :=
  fun w =>
    match ns_get name (the_module w) with
    | Some v => (Ok v, w)
    | None =>
        (Raise (AttributeError (lit "module has no attribute " ++ name)), w)
    end.

(** [del obj[key]] where [obj] is the object bound to [attr] in the module:
    the object itself changes.  The namespace records what each name is
    bound to by value; that other names, or containers, may hold the very
    same object and then show the change too is not recorded, and nothing
    is stated about them. *)
Definition module_delitem (env : Env) (attr key : pystr) : Py unit :=
  fun w =>
    match ns_get attr (the_module w) with
    | Some (PyDict d) =>
        if dict_contains key d then
          (Ok tt,
           with_module (ns_set attr (PyDict (dict_del key d)) (the_module w)) w)
        else (Raise (KeyError (py_repr env key)), w)
    | _ => (Raise (TypeError (lit "object does not support item deletion")), w)
    end.

(** [s.encode("utf-8")] *)
Definition str_encode_utf8 (s : pystr) : Py pybytes :=
  match utf8_encode s with
  | Some b => ret b
  | None =>
      raise (UnicodeEncodeError
               (lit "'utf-8' codec can't encode: surrogates not allowed"))
  end.

(** [os.environ.get(name)] and [os.environ[name]] *)
Definition environ_get (env : Env) (name : pystr) : option pystr :=
  option_map snd (find (fun kv => pystr_eqb name (fst kv)) (environ env)).

Definition environ_getitem (env : Env) (name : pystr) : Py pystr :=
  match environ_get env name with
  | Some value => ret value
  | None => raise (KeyError (py_repr env name))
  end.

(** The message of the [ValueError] of [int]: the value is quoted by its
    [repr], cut after 200 characters. *)
Definition invalid_literal (env : Env) (s : pystr) : pystr :=
  lit "invalid literal for int() with base 10: "
  ++ firstn 200 (py_repr env s).

(** [int(s)] *)
Definition int_of_str (env : Env) (s : pystr) : Py Z :=
  match py_int env s with
  | Some n => ret n
  | None => raise (ValueError (invalid_literal env s))
  end.

(** [os.write(fd, data)]: the bytes the descriptor takes are delivered; the
    count returned is dropped by the caller. *)
Definition os_write (env : Env) (fd : Z) (data : pybytes) : Py unit :=
  fun w =>
    match fd_fault env fd with
    | Some msg => (Raise (OSError msg), w)
    | None =>
        (Ok tt,
         with_written
           (deliver (Descriptor fd)
              (firstn (fd_takes (device w) fd (List.length data)) data)
              (written w)) w)
    end.

(** The state after an operation on standard output failed with [pending]
    in its buffer: what leaks has been delivered, the rest stays. *)
Definition stdout_broken (pending : pybytes) (w : World) : World :=
  with_stdout_buffer (skipn (stdout_leak (device w)) pending)
    (with_written
       (deliver Stdout (firstn (stdout_leak (device w)) pending) (written w))
       w).

(** [sys.stdout.buffer.write(data)]: the data joins the buffer, unless the
    writer passes it on at once and fails. *)
Definition stdout_buffer_write (data : pybytes) : Py unit :=
  fun w =>
    match stdout_write_fault (device w) with
    | Some msg => (Raise (OSError msg), stdout_broken (stdout_buffer w ++ data) w)
    | None => (Ok tt, with_stdout_buffer (stdout_buffer w ++ data) w)
    end.

(** [sys.stdout.buffer.flush()]: returns once everything is delivered, or
    raises. *)
Definition stdout_buffer_flush (env : Env) : Py unit :=
  fun w =>
    match stdout_fault env with
    | Some msg => (Raise (OSError msg), stdout_broken (stdout_buffer w) w)
    | None =>
        (Ok tt,
         with_stdout_buffer []
           (with_written (written w ++ [(Stdout, stdout_buffer w)]) w))
    end.

(** [print(part, ..., file=sys.stderr)] *)
Definition print_stderr (parts : list pystr) : Py unit :=
  fun w => (Ok tt, with_stderr (stderr w ++ join [32] parts ++ [NL]) w).

(** [sys.exit(code)] *)
Definition sys_exit {A} (code : Z) : Py A := raise (SystemExit code).

(** [str(error)] *)
Definition str_of_exc (e : exc) : pystr :=
  match e with
  | Exception _ msg => msg
  | SystemExit code => int_repr code
  | SystemExitText text => text
  | BaseException _ msg => msg
  end.

(** ** The script *)

Definition MIDDLEWARE : pystr := lit "middleware".
Definition CONFIG : pystr := lit "config".
Definition NODE_CHANNEL_FD : pystr := lit "NODE_CHANNEL_FD".

Definition send_message (env : Env) (payload : pyval) : Py unit :=
  text <- lift (json_dumps payload) ;;
  bytes_message <- str_encode_utf8 (text ++ [NL]) ;;
  if pystr_eqb (platform_system env) (lit "Windows") then
    stdout_buffer_write bytes_message ;;;
    stdout_buffer_flush env
  else
    value <- environ_getitem env NODE_CHANNEL_FD ;;
    fd <- int_of_str env value ;;
    os_write env fd bytes_message.

(** The [try] block of [run_python_module].  [cfg] is a reference to the
    object bound to [config] in the module, so what [send_message] receives
    is that object as it is after the deletion. *)
Definition relay (env : Env) (file_path : pystr) : Py unit :=
  let module_dir := dirname env (abspath env file_path) in
  path <- get_sys_path ;;
  when (negb (existsb (pystr_eqb module_dir) path))
       (sys_path_insert0 module_dir) ;;;
  when (negb (spec_has_loader env
                (splitext_root env (basename env file_path)) file_path))
       (raise (ImportError (lit "Could not load module from " ++ file_path))) ;;;
  load_module env (basename env module_dir) file_path ;;;
  has_config <- module_hasattr CONFIG ;;
  when (negb has_config)
       (raise (AttributeError
                 (lit "No 'config' found in module " ++ file_path))) ;;;
  cfg <- module_getattr CONFIG ;;
  when (match cfg with
        | PyDict d => dict_contains MIDDLEWARE d
        | _ => false
        end)
       (module_delitem env CONFIG MIDDLEWARE) ;;;
  cfg <- module_getattr CONFIG ;;
  send_message env cfg.

Definition run_python_module (env : Env) (file_path : pystr) : Py unit :=
  try_except_Exception
    (relay env file_path)
    (fun error =>
       print_stderr [lit "Error running Python module:"; str_of_exc error] ;;;
       sys_exit 1).

(** How the script ends: with the code of a [SystemExit] (0 when it runs to
    its end), with the text of a [SystemExit] that has no number, or with
    another exception that reaches the top level.  What the interpreter
    makes of it when it shuts down is [shutdown], below. *)
Inductive termination : Type :=
| Exit (status : Z)
| ExitText (text : pystr)
| Traceback (e : exc).

Definition interpreter_exit {A} (r : result A) : termination :=
  match r with
  | Ok _ => Exit 0
  | Raise (SystemExit code) => Exit code
  | Raise (SystemExitText text) => ExitText text
  | Raise e => Traceback e
  end.

(** The [__main__] block; [asyncio.run] runs the coroutine to its end and
    lets its exception through. *)
Definition main_block (env : Env) (argv : list pystr) : Py unit :=
  if (List.length argv <? 2)%nat then sys_exit 1
  else
    match nth_error argv 1 with
    | Some file_path => run_python_module env file_path
    | None => raise (Exception (lit "IndexError") (lit "list index out of range"))
    end.

Definition main (env : Env) (argv : list pystr) (w : World)
  : termination * World :=
  let (r, w') := main_block env argv w in (interpreter_exit r, w').

(** The process as the interpreter starts it, on streams in a given
    state. *)
Definition boot (dev : Device) (path : list pystr) : World :=
  {| sys_path := path; module_ns := None; written := [];
     stdout_buffer := []; stderr := []; device := dev |}.

(** The same on streams that take whatever they are given. *)
Definition fresh (path : list pystr) : World := boot sound path.

(** ** Vocabulary of the statements *)

Definition module_dir (env : Env) (file_path : pystr) : pystr :=
  dirname env (abspath env file_path).

Definition module_name (env : Env) (file_path : pystr) : pystr :=
  splitext_root env (basename env file_path).

Definition on_windows (env : Env) : bool :=
  pystr_eqb (platform_system env) (lit "Windows").

(** *** The interpreter shutting down

    The status handed to the operating system keeps the low byte of the
    code on POSIX and 32 bits on Windows.  The text of a [SystemExit]
    without a number is printed on the error stream and the status is 1.
    Then standard output is flushed: what the script left in its buffer is
    delivered, or, when that flush fails, a message is printed and the
    status becomes 120. *)

Definition exit_status (env : Env) (code : Z) : Z :=
  if on_windows env then code mod 4294967296 else code mod 256.

Definition flush_at_exit (t : termination) (w : World) : termination * World :=
  match stdout_buffer w with
  | [] => (t, w)
  | pending =>
      match exit_flush_fault (device w) with
      | None =>
          (t, with_stdout_buffer []
                (with_written (written w ++ [(Stdout, pending)]) w))
      | Some message =>
          (match t with Exit _ => Exit 120 | _ => t end,
           with_stderr (stderr w ++ message)
             (stdout_broken pending w))
      end
  end.

Definition shutdown (env : Env) (out : termination * World)
  : termination * World :=
  match fst out with
  | Exit code => flush_at_exit (Exit (exit_status env code)) (snd out)
  | ExitText text =>
      flush_at_exit (Exit 1)
        (with_stderr (stderr (snd out) ++ text ++ [NL]) (snd out))
  | Traceback e => flush_at_exit (Traceback e) (snd out)
  end.

(** The process from start to end. *)
Definition process (env : Env) (argv : list pystr) (w : World)
  : termination * World :=
  shutdown env (main env argv w).

(** The search path after the first step of the script. *)
Definition add_dir (d : pystr) (path : list pystr) : list pystr :=
  if existsb (pystr_eqb d) path then path else d :: path.

(** The worker at [file_path] loads with namespace [ns] when the process
    starts with search path [path]. *)
Definition loads (env : Env) (file_path : pystr) (path : list pystr)
    (ns : namespace) : Prop :=
  spec_has_loader env (module_name env file_path) file_path = true /\
  exec_module env (add_dir (module_dir env file_path) path)
    (basename env (module_dir env file_path)) file_path = Ok ns.

(** The [config] object after the deletion step. *)
Definition clean (cfg : pyval) : pyval :=
  match cfg with
  | PyDict d => PyDict (dict_del MIDDLEWARE d)
  | _ => cfg
  end.

(** The line the handler prints for [error]. *)
Definition diagnostic (error : exc) : pystr :=
  lit "Error running Python module: " ++ str_of_exc error ++ [NL].

(** What the channel branch of [send_message] comes to on a machine: the
    sink that receives the message, or the exception raised before anything
    is delivered. *)
Definition channel (env : Env) : result sink :=
  if on_windows env then
    match stdout_fault env with
    | Some msg => Raise (OSError msg)
    | None => Ok Stdout
    end
  else
    match environ_get env NODE_CHANNEL_FD with
    | None => Raise (KeyError (py_repr env NODE_CHANNEL_FD))
    | Some value =>
        match py_int env value with
        | None => Raise (ValueError (invalid_literal env value))
        | Some fd =>
            match fd_fault env fd with
            | Some msg => Raise (OSError msg)
            | None => Ok (Descriptor fd)
            end
        end
    end.

(** [NODE_CHANNEL_FD] is absent, or its value is not a number. *)
Definition channel_unannounced (env : Env) : Prop :=
  environ_get env NODE_CHANNEL_FD = None \/
  exists value,
    environ_get env NODE_CHANNEL_FD = Some value /\ py_int env value = None.

(** The process after a transmission that failed: on Windows the message
    stays in the buffer of [sys.stdout]. *)
Definition pending (env : Env) (data : pybytes) (w : World) : World :=
  if on_windows env then with_stdout_buffer (stdout_buffer w ++ data) w
  else w.

(** An item of a dictionary and the JSON member it is written as. *)
Definition written_as (item : pykey * pyval) (member : pystr * json) : Prop :=
  key_name (fst item) = Ok (fst member) /\
  to_json (snd item) = Ok (snd member).

(** The value a reader of the JSON object keeps for [name]: that of the
    last member of this name. *)
Fixpoint json_lookup (name : pystr) (members : list (pystr * json))
  : option json :=
  match members with
  | [] => None
  | (n, j) :: r =>
      match json_lookup name r with
      | Some later => Some later
      | None => if pystr_eqb name n then Some j else None
      end
  end.

(** Every key of the dictionary is a [str]. *)
Definition str_keys (d : pydict) : Prop :=
  forall k v, In (k, v) d -> exists name, k = KStr name.

(** [text] is one line: it ends with its only line break. *)
Definition one_line (text : pystr) : Prop :=
  exists body, text = body ++ [NL] /\ ~ In NL body.

(** The failure that the steps of the relay meet first, taken in their
    order: load the module, require [config], serialize what is left after
    the deletion, transmit. *)
Definition first_error (env : Env) (file_path : pystr) (path : list pystr)
  : option exc :=
  if spec_has_loader env (module_name env file_path) file_path then
    match exec_module env (add_dir (module_dir env file_path) path)
            (basename env (module_dir env file_path)) file_path with
    | Raise e => Some e
    | Ok ns =>
        match ns_get CONFIG ns with
        | None =>
            Some (AttributeError
                    (lit "No 'config' found in module " ++ file_path))
        | Some cfg =>
            match to_json (clean cfg) with
            | Raise e => Some e
            | Ok _ =>
                match channel env with
                | Raise e => Some e
                | Ok _ => None
                end
            end
        end
    end
  else Some (ImportError (lit "Could not load module from " ++ file_path)).

(** The failure met before anything is handed to the channel: loading the
    module, requiring [config], serializing what is left of it. *)
Definition early_error (env : Env) (file_path : pystr) (path : list pystr)
  : option exc :=
  if spec_has_loader env (module_name env file_path) file_path then
    match exec_module env (add_dir (module_dir env file_path) path)
            (basename env (module_dir env file_path)) file_path with
    | Raise e => Some e
    | Ok ns =>
        match ns_get CONFIG ns with
        | None =>
            Some (AttributeError
                    (lit "No 'config' found in module " ++ file_path))
        | Some cfg =>
            match to_json (clean cfg) with
            | Raise e => Some e
            | Ok _ => None
            end
        end
    end
  else Some (ImportError (lit "Could not load module from " ++ file_path)).

(** The line to send, when the steps before the transmission succeed. *)
Definition line_to_send (env : Env) (file_path : pystr) (path : list pystr)
  : option pybytes :=
  if spec_has_loader env (module_name env file_path) file_path then
    match exec_module env (add_dir (module_dir env file_path) path)
            (basename env (module_dir env file_path)) file_path with
    | Raise _ => None
    | Ok ns =>
        match ns_get CONFIG ns with
        | None => None
        | Some cfg =>
            match to_json (clean cfg) with
            | Raise _ => None
            | Ok j => Some (render j ++ [NL])
            end
        end
    end
  else None.

(** The process at the end of a relay that went through. *)
Definition relayed (env : Env) (file_path : pystr) (path : list pystr)
    (ns : namespace) (cfg : pyval) (s : sink) (j : json) : World :=
  {| sys_path := add_dir (module_dir env file_path) path;
     module_ns := Some (ns_set CONFIG (clean cfg) ns);
     written := [(s, render j ++ [NL])];
     stdout_buffer := [];
     stderr := [];
     device := sound |}.

(** *** Sentences of the specification, as they were put *)

(** "The JSON object sent equals [config] with [middleware] removed": read
    as a mapping, the object sent holds, for every item left in [config],
    the item's value under the item's key. *)
Definition emitted_equals_config : Prop :=
  forall env a0 file_path rest path ns d s members,
    loads env file_path path ns ->
    ns_get CONFIG ns = Some (PyDict d) ->
    written (snd (main env (a0 :: file_path :: rest) (fresh path))) =
      [(s, render (JObj members) ++ [NL])] ->
    forall k v,
      In (k, v) (dict_del MIDDLEWARE d) ->
      exists name j,
        key_name k = Ok name /\ to_json v = Ok j /\
        json_lookup name members = Some j.

(** "At the end of the process the output channel holds either the
    complete line or nothing." *)
Definition output_always_whole_or_nothing : Prop :=
  forall env argv dev path,
    let fin := process env argv (boot dev path) in
    written (snd fin) = [] \/
    exists s j, written (snd fin) = [(s, render j ++ [NL])].

(** "A successful invocation sends a JSON object." *)
Definition success_sends_json_object : Prop :=
  forall env argv path w',
    main_block env argv (fresh path) = (Ok tt, w') ->
    exists s members, written w' = [(s, render (JObj members) ++ [NL])].

(** "The [config] object holds the same keys and values after the relay as
    when the module finished loading." *)
Definition config_never_mutated : Prop :=
  forall env file_path path ns cfg,
    loads env file_path path ns -> ns_get CONFIG ns = Some cfg ->
    ns_get CONFIG
      (the_module (snd (run_python_module env file_path (fresh path))))
    = Some cfg.

(** "Off Windows, with [NODE_CHANNEL_FD] absent or not a number, the
    process exits with a non-zero status, a channel-related diagnostic is on
    the error stream and standard output is untouched." *)
Definition unannounced_channel_always_reported : Prop :=
  forall env a0 file_path rest path,
    on_windows env = false -> channel_unannounced env ->
    let out := main env (a0 :: file_path :: rest) (fresh path) in
    (exists status, fst out = Exit status /\ status <> 0) /\
    (exists e, channel env = Raise e /\ stderr (snd out) = diagnostic e) /\
    (forall data, ~ In (Stdout, data) (written (snd out))).


(** ** A sample machine: the playground worker on a POSIX host *)

Module Playground.

(** [posixpath.basename] and [posixpath.dirname] *)
Fixpoint split_last_slash (p : pystr) : pystr * pystr :=
  match p with
  | [] => ([], [])
  | c :: r =>
      let (head, tail) := split_last_slash r in
      if (c =? 47) || negb (existsb (Z.eqb 47) r)
      then if existsb (Z.eqb 47) (c :: r)
           then if existsb (Z.eqb 47) r then (c :: head, tail)
                else ([c], r)
           else ([], c :: r)
      else (c :: head, tail)
  end.

Fixpoint rstrip_slash (p : pystr) : pystr :=
  match p with
  | [] => []
  | c :: r =>
      match rstrip_slash r with
      | [] => if c =? 47 then [] else [c]
      | r' => c :: r'
      end
  end.

Definition posix_basename (p : pystr) : pystr := snd (split_last_slash p).

Definition posix_dirname (p : pystr) : pystr :=
  let head := fst (split_last_slash p) in
  if forallb (Z.eqb 47) head then head else rstrip_slash head.

(** [posixpath.splitext(p)[0]] for a base name with one dot at most. *)
Fixpoint before_dot (p : pystr) : pystr :=
  match p with
  | [] => []
  | c :: r => if c =? 46 then [] else c :: before_dot r
  end.

(** [posixpath.abspath] for paths already in normal form. *)
Definition posix_abspath (cwd p : pystr) : pystr :=
  match p with
  | 47 :: _ => p
  | _ => cwd ++ [47] ++ p
  end.

(** [config] of [playground/server/queues/hello.py] *)
Definition hello_config : pydict :=
  [ (KStr (lit "queue"), PyStr (lit "hello"));
    (KStr (lit "flow"),
     PyDict [ (KStr (lit "name"), PyList [PyStr (lit "welcome-flow")]);
              (KStr (lit "role"), PyStr (lit "entry"));
              (KStr (lit "step"), PyStr (lit "hello"));
              (KStr (lit "emits"), PyList [PyStr (lit "hello.done")]) ]) ].

Definition hello_ns : namespace :=
  [ (lit "config", PyDict hello_config);
    (lit "run", PyObject (lit "function")) ].

(** A worker whose [config] carries a callable under [middleware]. *)
Definition guarded_config : pydict :=
  [ (KStr (lit "queue"), PyStr (lit "x"));
    (KStr (lit "middleware"), PyObject (lit "function")) ].

Definition guarded_ns : namespace := [ (lit "config", PyDict guarded_config) ].

(** Workers used to exercise the failure paths. *)
Definition handler_ns : namespace :=
  [ (lit "config", PyDict [ (KStr (lit "handler"), PyObject (lit "function")) ]) ].
Definition listing_ns : namespace :=
  [ (lit "config", PyList [PyStr (lit "a"); PyInt 2]) ].
Definition bare_ns : namespace := [ (lit "run", PyObject (lit "function")) ].

Definition files : list (pystr * result namespace) :=
  [ (lit "/srv/queues/hello.py", Ok hello_ns);
    (lit "/srv/queues/guarded.py", Ok guarded_ns);
    (lit "/srv/queues/handler.py", Ok handler_ns);
    (lit "/srv/queues/listing.py", Ok listing_ns);
    (lit "/srv/queues/bare.py", Ok bare_ns);
    (lit "/srv/queues/quits.py", Raise (SystemExit 3));
    (lit "/srv/queues/noisy.py",
     Raise (Exception (lit "RuntimeError") (lit "first" ++ [NL] ++ lit "second"))) ].

Definition run_file (path : list pystr) (package file_path : pystr)
  : result namespace :=
  match find (fun f => pystr_eqb file_path (fst f)) files with
  | Some f => snd f
  | None =>
      Raise (Exception (lit "FileNotFoundError")
               (lit "[Errno 2] No such file or directory: '" ++ file_path
                ++ lit "'"))
  end.

Definition posix (system : pystr) (vars : list (pystr * pystr)) : Env :=
  {| platform_system := system;
     environ := vars;
     decimal_value := fun _ => None;
     isprintable := fun _ => true;
     abspath := posix_abspath (lit "/srv");
     dirname := posix_dirname;
     basename := posix_basename;
     splitext_root := before_dot;
     spec_has_loader := fun _ _ => true;
     exec_module := run_file;
     fd_fault := fun fd => if fd =? 3 then None
                           else Some (lit "[Errno 9] Bad file descriptor");
     stdout_fault := None |}.

(** The parent has opened descriptor 3 and announced it. *)
Definition linux : Env := posix (lit "Linux") [(NODE_CHANNEL_FD, lit "3")].
(** The same host without the announcement, and with a garbled one. *)
Definition linux_unset : Env := posix (lit "Linux") [].
Definition linux_garbled : Env :=
  posix (lit "Linux") [(NODE_CHANNEL_FD, lit "abc")].
Definition windows : Env := posix (lit "Windows") [].

Definition script : pystr := lit "get_config.py".
Definition search_path : list pystr := [lit "/opt/runtime"].
Definition start : World := fresh search_path.

Definition hello_py : pystr := lit "/srv/queues/hello.py".
Definition guarded_py : pystr := lit "/srv/queues/guarded.py".
Definition handler_py : pystr := lit "/srv/queues/handler.py".
Definition listing_py : pystr := lit "/srv/queues/listing.py".
Definition bare_py : pystr := lit "/srv/queues/bare.py".
Definition quits_py : pystr := lit "/srv/queues/quits.py".
Definition noisy_py : pystr := lit "/srv/queues/noisy.py".

End Playground.

(** ** The sample worker's entry point

    [run] of [playground/server/queues/hello.py].  What it prints goes to
    [sys.stdout] as text and is given here as the first component of the
    result.  The f-string formats the payload with [str]: a [str] as it is,
    every other modelled value by its [repr].  The text of an object of any
    other type is not determined by the script and is read from
    [object_str] (at top level) and [object_repr] (inside a container).
    Whether the stream can encode a text depends on its encoding:
    [stdout_rejects] gives the message of the [UnicodeEncodeError] that
    [print] raises for a text it cannot write. *)

Module Hello.

Section Run.

Variable env : Env.
Variable object_repr : pystr -> pystr.
Variable object_str : pystr -> pystr.
Variable stdout_rejects : pystr -> option pystr.

(** [repr(f)] of a float *)
Definition repr_float (f : pyfloat) : pystr :=
  match f with
  | Finite r => map fchar_code r
  | NaN => lit "nan"
  | Infinity => lit "inf"
  | NegInfinity => lit "-inf"
  end.

(** [repr(k)] of a dictionary key *)
Definition repr_key (k : pykey) : pystr :=
  match k with
  | KStr s => py_repr env s
  | KInt n => int_repr n
  | KFloat f => repr_float f
  | KBool true => lit "True"
  | KBool false => lit "False"
  | KNone => lit "None"
  | KOther t => object_repr t
  end.

(** [repr(v)] *)
Fixpoint repr_val (v : pyval) : pystr :=
  match v with
  | PyNone => lit "None"
  | PyBool true => lit "True"
  | PyBool false => lit "False"
  | PyInt n => int_repr n
  | PyFloat f => repr_float f
  | PyStr s => py_repr env s
  | PyList l => lit "[" ++ join (lit ", ") (map repr_val l) ++ lit "]"
  | PyTuple l =>
      match l with
      | [x] => lit "(" ++ repr_val x ++ lit ",)"
      | _ => lit "(" ++ join (lit ", ") (map repr_val l) ++ lit ")"
      end
  | PyDict d =>
      lit "{"
      ++ join (lit ", ")
           (map (fun kv => repr_key (fst kv) ++ lit ": " ++ repr_val (snd kv))
              d)
      ++ lit "}"
  | PyObject t => object_repr t
  end.

(** [str(v)] *)
Definition str_val (v : pyval) : pystr :=
  match v with
  | PyStr s => s
  | PyObject t => object_str t
  | _ => repr_val v
  end.

(** The text of the f-string. *)
Definition record (payload : pyval) : pystr :=
  lit "Processing hello with payload=" ++ str_val payload.

(** [run(payload, ctx)]; [ctx] is [None] when the caller leaves it out.
    [print] writes the text, then the line break; a text the stream cannot
    encode makes it raise before anything is written.  Of a result, the
    first component is what was printed, the second the value returned. *)
Definition run (payload : pyval) (ctx : option pyval)
  : result (pystr * pyval) :=
  match stdout_rejects (record payload) with
  | Some msg => Raise (UnicodeEncodeError msg)
  | None =>
      Ok (record payload ++ [NL],
          PyDict [(KStr (lit "status"), PyStr (lit "ok"))])
  end.

End Run.

End Hello.

(** ** Further machines *)

(** A POSIX host on which every path loads as a module with namespace
    [ns]. *)
Definition serving (system : pystr) (vars : list (pystr * pystr))
    (ns : namespace) : Env :=
  {| platform_system := system;
     environ := vars;
     decimal_value := fun _ => None;
     isprintable := fun _ => true;
     abspath := Playground.posix_abspath (lit "/srv");
     dirname := Playground.posix_dirname;
     basename := Playground.posix_basename;
     splitext_root := Playground.before_dot;
     spec_has_loader := fun _ _ => true;
     exec_module := fun _ _ _ => Ok ns;
     fd_fault := fun fd => if fd =? 3 then None
                           else Some (lit "[Errno 9] Bad file descriptor");
     stdout_fault := None |}.

(** A host on which no loader takes the file, as for a path without a
    suffix the importer knows. *)
Definition loaderless : Env :=
  {| platform_system := lit "Linux";
     environ := [(NODE_CHANNEL_FD, lit "3")];
     decimal_value := fun _ => None;
     isprintable := fun _ => true;
     abspath := Playground.posix_abspath (lit "/srv");
     dirname := Playground.posix_dirname;
     basename := Playground.posix_basename;
     splitext_root := Playground.before_dot;
     spec_has_loader := fun _ _ => false;
     exec_module := Playground.run_file;
     fd_fault := fun _ => None;
     stdout_fault := None |}.

(** A worker whose [flow] carries a [middleware] key of its own. *)
Definition layered_config : pydict :=
  [ (KStr (lit "queue"), PyStr (lit "x"));
    (KStr (lit "middleware"), PyObject (lit "function"));
    (KStr (lit "flow"),
     PyDict [ (KStr (lit "step"), PyStr (lit "a"));
              (KStr (lit "middleware"), PyStr (lit "log")) ]) ].

Definition layered_ns : namespace := [ (lit "config", PyDict layered_config) ].

(** A Windows host whose standard output has lost its reader. *)
Definition windows_broken : Env :=
  {| platform_system := lit "Windows";
     environ := [];
     decimal_value := fun _ => None;
     isprintable := fun _ => true;
     abspath := Playground.posix_abspath (lit "/srv");
     dirname := Playground.posix_dirname;
     basename := Playground.posix_basename;
     splitext_root := Playground.before_dot;
     spec_has_loader := fun _ _ => true;
     exec_module := Playground.run_file;
     fd_fault := fun _ => None;
     stdout_fault := Some (lit "[Errno 32] Broken pipe") |}.

(** Streams on which five bytes get through before a failure shows, and
    which fail again at shutdown. *)
Definition leaky : Device :=
  {| fd_takes := fun _ n => n;
     stdout_write_fault := None;
     stdout_leak := 5%nat;
     exit_flush_fault := Some (lit "Exception ignored on flushing sys.stdout" ++ [NL]) |}.

(** Descriptors that take five bytes of a write. *)
Definition narrow : Device :=
  {| fd_takes := fun _ n => Nat.min n 5;
     stdout_write_fault := None;
     stdout_leak := 0%nat;
     exit_flush_fault := None |}.

(** A worker whose [config] has the number 1 and the text ["1"] among its
    keys. *)
Definition numbered_config : pydict :=
  [ (KInt 1, PyStr (lit "a")); (KStr (lit "1"), PyStr (lit "b")) ].

Definition numbered_ns : namespace := [ (lit "config", PyDict numbered_config) ].

(** The worker of [Playground.guarded_config] without its [middleware]. *)
Definition plain_ns : namespace :=
  [ (lit "config", PyDict [ (KStr (lit "queue"), PyStr (lit "x")) ]) ].

(** [env] with another environment and another descriptor table. *)
Definition with_channel_setup (vars : list (pystr * pystr))
    (fault : Z -> option pystr) (env : Env) : Env :=
  {| platform_system := platform_system env;
     environ := vars;
     decimal_value := decimal_value env;
     isprintable := isprintable env;
     abspath := abspath env;
     dirname := dirname env;
     basename := basename env;
     splitext_root := splitext_root env;
     spec_has_loader := spec_has_loader env;
     exec_module := exec_module env;
     fd_fault := fault;
     stdout_fault := stdout_fault env |}.

(** * Properties *)

(** ** Text produced by [json.dumps] *)

Lemma pystr_eqb_eq (a b : pystr) : pystr_eqb a b = true <-> a = b.
Proof.
  unfold pystr_eqb. destruct (list_eq_dec Z.eq_dec a b); split; congruence.
Qed.

Lemma pystr_eqb_refl (a : pystr) : pystr_eqb a a = true.
Proof. now apply pystr_eqb_eq. Qed.

Lemma pystr_eqb_neq (a b : pystr) : pystr_eqb a b = false <-> a <> b.
Proof.
  unfold pystr_eqb. destruct (list_eq_dec Z.eq_dec a b); split; congruence.
Qed.

Lemma hex_digit_printable (n : Z) : printable_ascii (hex_digit n).
Proof.
  unfold hex_digit, printable_ascii.
  assert (H : 0 <= Z.land n 15 < 16).
  { change 15 with (Z.ones 4). rewrite Z.land_ones by lia.
    apply Z.mod_pos_bound. reflexivity. }
  destruct (Z.land n 15 <? 10) eqn:E.
  - apply Z.ltb_lt in E. lia.
  - apply Z.ltb_ge in E. lia.
Qed.

Lemma hex4_printable (n : Z) : Forall printable_ascii (hex4 n).
Proof. unfold hex4. repeat constructor; apply hex_digit_printable. Qed.

Lemma escape_char_printable (c : Z) : Forall printable_ascii (escape_char c).
Proof.
  unfold escape_char.
  repeat match goal with
         | |- context [if ?b then _ else _] => destruct b eqn:?
         end;
    repeat first
      [ apply Forall_app; split
      | apply hex4_printable
      | apply Forall_cons
      | apply Forall_nil ];
    unfold printable_ascii; lia.
Qed.

Lemma encode_basestring_ascii_printable (s : pystr) :
  Forall printable_ascii (encode_basestring_ascii s).
Proof.
  unfold encode_basestring_ascii.
  apply Forall_app; split; [repeat constructor; unfold printable_ascii; lia|].
  apply Forall_app; split; [|repeat constructor; unfold printable_ascii; lia].
  induction s as [|c r IH]; simpl; [constructor|].
  apply Forall_app; split; [apply escape_char_printable | exact IH].
Qed.

Lemma uint_digits (d : Decimal.uint) :
  Forall digit_or_minus (lit (NilEmpty.string_of_uint d)).
Proof.
  induction d; simpl; [constructor| ..];
    (constructor; [right; cbn; lia | exact IHd]).
Qed.

Lemma nz_uint_digits (d : Decimal.uint) :
  Forall digit_or_minus (lit (NilZero.string_of_uint d)).
Proof.
  destruct d;
    [ cbn; constructor; [right; lia | constructor]
    | match goal with
      | |- Forall _ (lit (NilZero.string_of_uint ?x)) =>
          change (NilZero.string_of_uint x) with (NilEmpty.string_of_uint x);
          apply uint_digits
      end .. ].
Qed.

Lemma int_repr_digits (z : Z) : Forall digit_or_minus (int_repr z).
Proof.
  unfold int_repr, NilZero.string_of_int.
  destruct (Z.to_int z) as [d|d].
  - apply nz_uint_digits.
  - change (lit (String "-" (NilZero.string_of_uint d)))
      with (45 :: lit (NilZero.string_of_uint d)).
    constructor; [now left | apply nz_uint_digits].
Qed.

Lemma int_repr_printable (z : Z) : Forall printable_ascii (int_repr z).
Proof.
  eapply Forall_impl; [|apply int_repr_digits].
  intros c [->|H]; unfold printable_ascii; lia.
Qed.

Lemma join_printable (sep : pystr) (parts : list pystr) :
  Forall printable_ascii sep ->
  Forall (Forall printable_ascii) parts ->
  Forall printable_ascii (join sep parts).
Proof.
  intros Hsep Hparts. induction Hparts as [|p rest Hp Hrest IH]; simpl.
  - constructor.
  - destruct rest as [|q rest']; [exact Hp|].
    apply Forall_app; split; [exact Hp|].
    apply Forall_app; split; [exact Hsep | exact IH].
Qed.

Lemma lit_printable_check (s : string) :
  forallb (fun c => (32 <=? c) && (c <=? 126)) (lit s) = true ->
  Forall printable_ascii (lit s).
Proof.
  intros H. apply Forall_forall. intros c Hc.
  rewrite forallb_forall in H. specialize (H c Hc).
  apply andb_true_iff in H as [L U].
  apply Z.leb_le in L. apply Z.leb_le in U. split; assumption.
Qed.

Lemma float_json_printable (f : pyfloat) :
  Forall printable_ascii (float_json f).
Proof.
  destruct f as [r| | |]; cbn [float_json];
    try (now apply lit_printable_check).
  induction r as [|c r IH]; cbn [map]; constructor; [|exact IH].
  unfold printable_ascii.
  destruct c; cbn [fchar_code]; try lia.
  pose proof (Z.mod_pos_bound n 10). lia.
Qed.

(** With [ensure_ascii], the text holds printable ASCII only: no line break,
    no control character, nothing beyond one byte in UTF-8. *)
Lemma render_printable (j : json) : Forall printable_ascii (render j).
Proof.
  induction j using json_nested_ind; cbn [render].
  - now apply lit_printable_check.
  - destruct b; now apply lit_printable_check.
  - apply int_repr_printable.
  - apply float_json_printable.
  - apply encode_basestring_ascii_printable.
  - apply Forall_app; split; [now apply lit_printable_check|].
    apply Forall_app; split; [|now apply lit_printable_check].
    apply join_printable; [now apply lit_printable_check|].
    induction H; cbn [map]; constructor; assumption.
  - apply Forall_app; split; [now apply lit_printable_check|].
    apply Forall_app; split; [|now apply lit_printable_check].
    apply join_printable; [now apply lit_printable_check|].
    induction H as [|kv r Hkv Hr IH]; cbn [map]; constructor; [|exact IH].
    apply Forall_app; split; [apply encode_basestring_ascii_printable|].
    apply Forall_app; split; [now apply lit_printable_check | exact Hkv].
Qed.

Lemma utf8_encode_ascii (s : pystr) :
  Forall (fun c => c < 128) s -> utf8_encode s = Some s.
Proof.
  induction 1 as [|c r Hc Hr IH]; simpl; [reflexivity|].
  unfold utf8_char. apply Z.ltb_lt in Hc. rewrite Hc, IH. reflexivity.
Qed.

Lemma json_line_encodes (j : json) :
  utf8_encode (render j ++ [NL]) = Some (render j ++ [NL]).
Proof.
  apply utf8_encode_ascii. apply Forall_app; split.
  - eapply Forall_impl; [|apply render_printable].
    unfold printable_ascii; intros; lia.
  - repeat constructor.
Qed.

Lemma render_no_newline (j : json) : ~ In NL (render j).
Proof.
  intros H. pose proof (render_printable j) as P.
  rewrite Forall_forall in P. specialize (P _ H).
  unfold printable_ascii, NL in P. lia.
Qed.

(** ** Dictionaries and namespaces *)

Lemma key_is_spec (name : pystr) (k : pykey) :
  key_is name k = true <-> k = KStr name.
Proof.
  destruct k; simpl; try (split; [discriminate | intros [=]]).
  rewrite pystr_eqb_eq. split; [now intros -> | now intros [= ->]].
Qed.

Lemma dict_del_absent (name : pystr) (d : pydict) :
  dict_contains name d = false -> dict_del name d = d.
Proof.
  unfold dict_contains, dict_del.
  induction d as [|kv r IH]; simpl; [reflexivity|].
  intros H. apply orb_false_iff in H as [H1 H2].
  rewrite H1. simpl. now rewrite IH.
Qed.

Lemma dict_contains_del (name : pystr) (d : pydict) :
  dict_contains name (dict_del name d) = false.
Proof.
  unfold dict_contains, dict_del.
  induction d as [|kv r IH]; simpl; [reflexivity|].
  destruct (key_is name (fst kv)) eqn:E; simpl; [exact IH|].
  now rewrite E, IH.
Qed.

Lemma in_dict_del (name : pystr) (d : pydict) (k : pykey) (v : pyval) :
  In (k, v) (dict_del name d) <-> In (k, v) d /\ k <> KStr name.
Proof.
  unfold dict_del. rewrite filter_In. simpl.
  rewrite negb_true_iff, <- not_true_iff_false, key_is_spec. reflexivity.
Qed.

Lemma dict_get_del_other (name other : pystr) (d : pydict) :
  other <> name -> dict_get other (dict_del name d) = dict_get other d.
Proof.
  intros Hne. unfold dict_del.
  induction d as [|[k v] r IH]; simpl; [reflexivity|].
  destruct (key_is name k) eqn:E; simpl.
  - apply key_is_spec in E. subst k. simpl.
    destruct (pystr_eqb other name) eqn:E'; [|exact IH].
    apply pystr_eqb_eq in E'. contradiction.
  - now rewrite IH.
Qed.

Lemma dict_get_del_same (name : pystr) (d : pydict) :
  dict_get name (dict_del name d) = None.
Proof.
  unfold dict_del.
  induction d as [|[k v] r IH]; simpl; [reflexivity|].
  destruct (key_is name k) eqn:E; simpl; [exact IH|].
  now rewrite E.
Qed.

Lemma ns_get_set_same (name : pystr) (v : pyval) (ns : namespace) :
  ns_get name (ns_set name v ns) = Some v.
Proof.
  induction ns as [|[n x] r IH]; simpl.
  - now rewrite pystr_eqb_refl.
  - destruct (pystr_eqb name n) eqn:E; simpl; now rewrite E.
Qed.

Lemma ns_get_set_other (name other : pystr) (v : pyval) (ns : namespace) :
  other <> name -> ns_get other (ns_set name v ns) = ns_get other ns.
Proof.
  intros Hne. induction ns as [|[n x] r IH]; simpl.
  - apply pystr_eqb_neq in Hne. now rewrite Hne.
  - destruct (pystr_eqb name n) eqn:E; simpl; [|now rewrite IH].
    apply pystr_eqb_eq in E. subst n.
    apply pystr_eqb_neq in Hne. now rewrite Hne.
Qed.

Lemma ns_set_same (name : pystr) (v : pyval) (ns : namespace) :
  ns_get name ns = Some v -> ns_set name v ns = ns.
Proof.
  induction ns as [|[n x] r IH]; simpl; [discriminate|].
  destruct (pystr_eqb name n) eqn:E.
  - now intros [= ->].
  - intros H. now rewrite IH.
Qed.

(** ** The encoder on dictionaries *)

Lemma to_json_dict (d : pydict) :
  to_json (PyDict d) =
    match to_members d with
    | Raise e => Raise e
    | Ok ms => Ok (JObj ms)
    end.
Proof.
  cbn [to_json].
  match goal with
  | |- match ?f d with _ => _ end = _ =>
      assert (H : forall d', f d' = to_members d')
  end.
  { induction d' as [|[k x] r IH]; cbn [to_members]; [reflexivity|].
    rewrite IH. reflexivity. }
  now rewrite H.
Qed.

Lemma to_members_written_as (d : pydict) (ms : list (pystr * json)) :
  to_members d = Ok ms -> Forall2 written_as d ms.
Proof.
  revert ms. induction d as [|[k x] r IH]; cbn [to_members]; intros ms H.
  - injection H as <-. constructor.
  - destruct (key_name k) as [name|] eqn:Ek; [|discriminate].
    destruct (to_json x) as [j|] eqn:Ex; [|discriminate].
    destruct (to_members r) as [ms'|] eqn:Er; [|discriminate].
    injection H as <-. constructor; [|now apply IH].
    split; assumption.
Qed.

Lemma int_repr_not_middleware (n : Z) : int_repr n <> MIDDLEWARE.
Proof.
  intros H. pose proof (int_repr_digits n) as D. rewrite H in D.
  inversion D as [|c r Hc _]; subst. destruct Hc as [Hc|Hc]; [discriminate|lia].
Qed.

Lemma float_json_not_middleware (f : pyfloat) : float_json f <> MIDDLEWARE.
Proof.
  destruct f as [r| | |]; cbn [float_json]; try discriminate.
  destruct r as [|c r]; [discriminate|]. cbn [map]. intros [= H _].
  destruct c; cbn [fchar_code] in H; try discriminate.
  pose proof (Z.mod_pos_bound n 10). lia.
Qed.

(** Only the [str] key ["middleware"] is written under that name. *)
Lemma key_name_middleware (k : pykey) :
  key_name k = Ok MIDDLEWARE -> k = KStr MIDDLEWARE.
Proof.
  destruct k as [s|n|[|]|f| |t]; simpl; intros H; try discriminate.
  - now injection H as ->.
  - injection H as H. now apply int_repr_not_middleware in H.
  - injection H as H. now apply float_json_not_middleware in H.
Qed.

Lemma written_as_source (d : pydict) (ms : list (pystr * json))
    (member : pystr * json) :
  Forall2 written_as d ms -> In member ms ->
  exists item, In item d /\ written_as item member.
Proof.
  induction 1 as [|item m d' ms' Hitem _ IH]; intros Hin; [contradiction|].
  destruct Hin as [->|Hin].
  - exists item. split; [now left | exact Hitem].
  - destruct (IH Hin) as [it [Hit Hw]]. exists it. split; [now right | exact Hw].
Qed.

Lemma members_without_middleware (d : pydict) (ms : list (pystr * json)) :
  to_members (dict_del MIDDLEWARE d) = Ok ms -> ~ In MIDDLEWARE (map fst ms).
Proof.
  intros H Hin. apply to_members_written_as in H.
  apply in_map_iff in Hin as [[name j] [Hname Hin]]. simpl in Hname. subst name.
  destruct (written_as_source _ _ _ H Hin) as [[k v] [Hkv [Hk _]]].
  simpl in Hk. apply key_name_middleware in Hk. subst k.
  apply in_dict_del in Hkv as [_ Hne]. now apply Hne.
Qed.

Lemma to_json_elems (l : list pyval) :
  to_json (PyList l) =
    match to_elems l with
    | Raise e => Raise e
    | Ok js => Ok (JArr js)
    end
  /\ to_json (PyTuple l) = to_json (PyList l).
Proof.
  split; [|reflexivity]. cbn [to_json].
  match goal with
  | |- match ?f l with _ => _ end = _ =>
      assert (H : forall l', f l' = to_elems l')
  end.
  { induction l' as [|x r IH]; cbn [to_elems]; [reflexivity|].
    rewrite IH. reflexivity. }
  now rewrite H.
Qed.

(** Whatever [json.dumps] raises is caught by [except Exception]. *)
Lemma to_json_raises_Exception (v : pyval) (e : exc) :
  to_json v = Raise e -> is_Exception e = true.
Proof.
  revert e. induction v using pyval_nested_ind; intros e; try discriminate.
  - destruct (to_json_elems l) as [-> _].
    destruct (to_elems l) as [js|e'] eqn:El; [discriminate|].
    intros [= ->]. revert e El.
    induction H as [|x r Hx Hr IH]; cbn [to_elems]; intros e El; [discriminate|].
    destruct (to_json x) as [j|e1] eqn:Ex; [|injection El as <-; now apply Hx].
    destruct (to_elems r) as [js|e2] eqn:Er; [discriminate|].
    injection El as <-. now apply IH.
  - destruct (to_json_elems l) as [E1 E2]. rewrite E2, E1. clear E1 E2.
    destruct (to_elems l) as [js|e'] eqn:El; [discriminate|].
    intros [= ->]. revert e El.
    induction H as [|x r Hx Hr IH]; cbn [to_elems]; intros e El; [discriminate|].
    destruct (to_json x) as [j|e1] eqn:Ex; [|injection El as <-; now apply Hx].
    destruct (to_elems r) as [js|e2] eqn:Er; [discriminate|].
    injection El as <-. now apply IH.
  - rewrite to_json_dict.
    destruct (to_members d) as [ms|e'] eqn:Ed; [discriminate|].
    intros [= ->]. revert e Ed.
    induction H as [|[k x] r Hx Hr IH]; cbn [to_members]; intros e Ed;
      [discriminate|].
    destruct (key_name k) as [name|e0] eqn:Ek.
    + destruct (to_json x) as [j|e1] eqn:Ex; [|injection Ed as <-; now apply Hx].
      destruct (to_members r) as [ms|e2] eqn:Er; [discriminate|].
      injection Ed as <-. now apply IH.
    + injection Ed as <-. destruct k as [?|?|[|]|?| |?]; try discriminate.
      now injection Ek as <-.
  - cbn [to_json]. now intros [= <-].
Qed.

Lemma channel_raises_Exception (env : Env) (e : exc) :
  channel env = Raise e -> is_Exception e = true.
Proof.
  unfold channel.
  destruct (on_windows env).
  - destruct (stdout_fault env); [now intros [= <-] | discriminate].
  - destruct (environ_get env NODE_CHANNEL_FD) as [v|]; [|now intros [= <-]].
    destruct (py_int env v) as [fd|]; [|now intros [= <-]].
    destruct (fd_fault env fd); [now intros [= <-] | discriminate].
Qed.

(** ** The steps of the script *)

Lemma print_diagnostic (e : exc) (w : World) :
  print_stderr [lit "Error running Python module:"; str_of_exc e] w =
    (Ok tt, with_stderr (stderr w ++ diagnostic e) w).
Proof.
  unfold print_stderr, diagnostic. reflexivity.
Qed.

Lemma send_message_unserializable (env : Env) (v : pyval) (e : exc) (w : World) :
  to_json v = Raise e -> send_message env v w = (Raise e, w).
Proof.
  intros H. unfold send_message, bind, lift, json_dumps. now rewrite H.
Qed.

Lemma deliver_line (s : sink) (text : pystr) (l : list (sink * pybytes)) :
  deliver s (text ++ [NL]) l = l ++ [(s, text ++ [NL])].
Proof. now destruct text. Qed.

Lemma send_message_delivers (env : Env) (v : pyval) (j : json) (s : sink)
    (w : World) :
  to_json v = Ok j -> channel env = Ok s -> stdout_buffer w = [] ->
  device w = sound ->
  send_message env v w =
    (Ok tt, with_written (written w ++ [(s, render j ++ [NL])]) w).
Proof.
  intros Hj Hc Hb Hd.
  unfold send_message, bind, lift, json_dumps, str_encode_utf8.
  rewrite Hj, json_line_encodes. unfold ret at 1.
  unfold channel, on_windows in Hc.
  destruct (pystr_eqb (platform_system env) (lit "Windows")).
  - unfold stdout_buffer_write, stdout_buffer_flush.
    destruct (stdout_fault env); [discriminate|]. injection Hc as <-.
    destruct w; simpl in *; subst. reflexivity.
  - unfold environ_getitem, int_of_str, os_write, ret.
    destruct (environ_get env NODE_CHANNEL_FD) as [value|]; [|discriminate].
    destruct (py_int env value) as [fd|]; [|discriminate].
    destruct (fd_fault env fd); [discriminate|]. injection Hc as <-.
    rewrite Hd. cbn [fd_takes sound]. now rewrite firstn_all, deliver_line.
Qed.

Lemma send_message_undelivered (env : Env) (v : pyval) (j : json) (e : exc)
    (w : World) :
  to_json v = Ok j -> channel env = Raise e -> device w = sound ->
  send_message env v w = (Raise e, pending env (render j ++ [NL]) w).
Proof.
  intros Hj Hc Hd.
  unfold send_message, bind, lift, json_dumps, str_encode_utf8, pending.
  rewrite Hj, json_line_encodes. unfold ret at 1.
  unfold channel in Hc. unfold on_windows in *.
  destruct (pystr_eqb (platform_system env) (lit "Windows")).
  - unfold stdout_buffer_write, stdout_buffer_flush, stdout_broken.
    destruct (stdout_fault env); [|discriminate]. injection Hc as <-.
    destruct w; simpl in *; subst. reflexivity.
  - unfold environ_getitem, int_of_str, os_write, ret, raise.
    destruct (environ_get env NODE_CHANNEL_FD) as [value|];
      [|now injection Hc as <-].
    destruct (py_int env value) as [fd|]; [|now injection Hc as <-].
    destruct (fd_fault env fd); [|discriminate]. now injection Hc as <-.
Qed.

(** The [try] block, step by step. *)
Lemma relay_steps (env : Env) (file_path : pystr) (w : World) :
  relay env file_path w =
    let w1 := with_sys_path (add_dir (module_dir env file_path) (sys_path w)) w in
    if spec_has_loader env (module_name env file_path) file_path then
      match exec_module env (sys_path w1)
              (basename env (module_dir env file_path)) file_path with
      | Raise e => (Raise e, w1)
      | Ok ns =>
          match ns_get CONFIG ns with
          | None =>
              (Raise (AttributeError
                        (lit "No 'config' found in module " ++ file_path)),
               with_module ns w1)
          | Some cfg =>
              send_message env (clean cfg)
                (with_module (ns_set CONFIG (clean cfg) ns) w1)
          end
      end
    else
      (Raise (ImportError (lit "Could not load module from " ++ file_path)), w1).
Proof.
  unfold relay, module_name, module_dir, add_dir, bind, get_sys_path, when,
    sys_path_insert0, ret, raise, load_module, module_hasattr,
    module_getattr, module_delitem, the_module.
  destruct w as [p m wr b se]; simpl.
  set (dir := dirname env (abspath env file_path)).
  destruct (existsb (pystr_eqb dir) p); simpl;
    (destruct (spec_has_loader env _ file_path); simpl; [|reflexivity]);
    (destruct (exec_module env _ _ file_path) as [ns|e]; simpl; [|reflexivity]);
    (destruct (ns_get CONFIG ns) as [cfg|] eqn:Ecfg; simpl; [|reflexivity]).
  all: rewrite ?Ecfg; simpl.
  all: destruct cfg; simpl; rewrite ?Ecfg, ?(ns_set_same _ _ _ Ecfg); simpl;
    try reflexivity.
  all: destruct (dict_contains MIDDLEWARE items) eqn:Em; simpl;
    rewrite ?Ecfg, ?Em; simpl;
    rewrite ?ns_get_set_same, ?(dict_del_absent _ _ Em),
      ?(ns_set_same _ _ _ Ecfg), ?Ecfg; reflexivity.
Qed.

Lemma run_python_module_returns (env : Env) (file_path : pystr) (w w' : World) :
  relay env file_path w = (Ok tt, w') ->
  run_python_module env file_path w = (Ok tt, w').
Proof.
  intros H. unfold run_python_module, try_except_Exception. now rewrite H.
Qed.

Lemma run_python_module_catches (env : Env) (file_path : pystr) (e : exc)
    (w w' : World) :
  relay env file_path w = (Raise e, w') -> is_Exception e = true ->
  run_python_module env file_path w =
    (Raise (SystemExit 1), with_stderr (stderr w' ++ diagnostic e) w').
Proof.
  intros H He. unfold run_python_module, try_except_Exception.
  rewrite H, He. unfold bind. rewrite print_diagnostic. reflexivity.
Qed.

Lemma run_python_module_lets_through (env : Env) (file_path : pystr) (e : exc)
    (w w' : World) :
  relay env file_path w = (Raise e, w') -> is_Exception e = false ->
  run_python_module env file_path w = (Raise e, w').
Proof.
  intros H He. unfold run_python_module, try_except_Exception.
  now rewrite H, He.
Qed.

Lemma main_with_path (env : Env) (a0 file_path : pystr) (rest : list pystr)
    (w : World) :
  main env (a0 :: file_path :: rest) w =
    (interpreter_exit (fst (run_python_module env file_path w)),
     snd (run_python_module env file_path w)).
Proof.
  unfold main, main_block. simpl.
  now destruct (run_python_module env file_path w).
Qed.

Lemma existsb_pystr_In (d : pystr) (path : list pystr) :
  existsb (pystr_eqb d) path = true <-> In d path.
Proof.
  rewrite existsb_exists. split.
  - intros [x [Hin Heq]]. apply pystr_eqb_eq in Heq. now subst.
  - intros Hin. exists d. split; [exact Hin | apply pystr_eqb_refl].
Qed.

(** [send_message] touches neither the search path, nor the module, nor
    the error stream. *)
Lemma send_message_frame (env : Env) (v : pyval) (w : World) :
  let w' := snd (send_message env v w) in
  sys_path w' = sys_path w /\ module_ns w' = module_ns w /\
  stderr w' = stderr w.
Proof.
  unfold send_message, bind, lift, str_encode_utf8, ret, raise,
    stdout_buffer_write, stdout_buffer_flush, environ_getitem, int_of_str,
    os_write.
  destruct (json_dumps v) as [text|e]; simpl; [|auto].
  destruct (utf8_encode (text ++ [NL])); simpl; [|auto].
  destruct (pystr_eqb (platform_system env) (lit "Windows")); simpl.
  - destruct (stdout_write_fault (device w)); simpl; [auto|].
    destruct (stdout_fault env); simpl; auto.
  - destruct (environ_get env NODE_CHANNEL_FD) as [value|]; simpl; [|auto].
    destruct (py_int env value) as [fd|]; simpl; [|auto].
    destruct (fd_fault env fd); simpl; auto.
Qed.

(** The handler adds to the error stream and to nothing else. *)
Lemma run_python_module_frame (env : Env) (file_path : pystr) (w : World) :
  let w1 := snd (relay env file_path w) in
  let w' := snd (run_python_module env file_path w) in
  sys_path w' = sys_path w1 /\ module_ns w' = module_ns w1 /\
  written w' = written w1 /\ stdout_buffer w' = stdout_buffer w1.
Proof.
  unfold run_python_module, try_except_Exception.
  destruct (relay env file_path w) as [[[]|e] w1]; simpl; [auto|].
  destruct (is_Exception e); simpl; auto.
Qed.

Lemma relay_sys_path (env : Env) (file_path : pystr) (w : World) :
  sys_path (snd (relay env file_path w)) =
    add_dir (module_dir env file_path) (sys_path w).
Proof.
  rewrite relay_steps. cbv zeta.
  destruct (spec_has_loader env _ file_path); [|reflexivity].
  destruct (exec_module env _ _ file_path) as [ns|e]; [|reflexivity].
  destruct (ns_get CONFIG ns) as [cfg|]; [|reflexivity].
  now rewrite (proj1 (send_message_frame env _ _)).
Qed.

(** The [try] block ends with the first error of its steps, having
    delivered nothing, or goes through and delivers the whole line. *)
Lemma relay_first_error (env : Env) (file_path : pystr) (path : list pystr) :
  match first_error env file_path path with
  | Some e =>
      exists w', relay env file_path (fresh path) = (Raise e, w') /\
                 written w' = [] /\ stderr w' = [] /\
                 (on_windows env = false -> stdout_buffer w' = [])
  | None =>
      exists ns cfg s j,
        loads env file_path path ns /\ ns_get CONFIG ns = Some cfg /\
        to_json (clean cfg) = Ok j /\ channel env = Ok s /\
        relay env file_path (fresh path) =
          (Ok tt, relayed env file_path path ns cfg s j)
  end.
Proof.
  unfold first_error, loads. rewrite relay_steps. cbv zeta.
  change (sys_path (with_sys_path ?p _)) with p.
  change (sys_path (fresh path)) with path.
  destruct (spec_has_loader env _ file_path); [|eexists; repeat split].
  destruct (exec_module env _ _ file_path) as [ns|e] eqn:Ex;
    [|eexists; repeat split].
  destruct (ns_get CONFIG ns) as [cfg|] eqn:Ecfg; [|eexists; repeat split].
  destruct (to_json (clean cfg)) as [j|e] eqn:Ej.
  - destruct (channel env) as [s|e] eqn:Ec.
    + exists ns, cfg, s, j. repeat split; try assumption.
      rewrite (send_message_delivers env _ j s); auto.
    + rewrite (send_message_undelivered env _ j e); auto.
      eexists; split; [reflexivity|]. unfold pending.
      destruct (on_windows env); repeat split; discriminate.
  - rewrite (send_message_unserializable env _ e); auto.
    eexists; repeat split.
Qed.

(** The whole process, by the first error of the relay. *)
Lemma main_by_first_error (env : Env) (a0 file_path : pystr)
    (rest path : list pystr) :
  let out := main env (a0 :: file_path :: rest) (fresh path) in
  match first_error env file_path path with
  | None =>
      exists ns cfg s j,
        loads env file_path path ns /\ ns_get CONFIG ns = Some cfg /\
        to_json (clean cfg) = Ok j /\ channel env = Ok s /\
        run_python_module env file_path (fresh path) =
          (Ok tt, relayed env file_path path ns cfg s j) /\
        out = (Exit 0, relayed env file_path path ns cfg s j)
  | Some e =>
      exists w1,
        relay env file_path (fresh path) = (Raise e, w1) /\
        written (snd out) = [] /\
        (on_windows env = false -> stdout_buffer (snd out) = []) /\
        if is_Exception e
        then fst out = Exit 1 /\ stderr (snd out) = diagnostic e
        else fst out = interpreter_exit (@Raise unit e) /\ stderr (snd out) = []
  end.
Proof.
  cbv zeta. rewrite main_with_path.
  pose proof (relay_first_error env file_path path) as H.
  destruct (first_error env file_path path) as [e|].
  - destruct H as [w1 [Hr [Hw [Hs Hb]]]]. exists w1. split; [exact Hr|].
    destruct (is_Exception e) eqn:He.
    + rewrite (run_python_module_catches _ _ _ _ _ Hr He). simpl.
      rewrite Hs. auto.
    + rewrite (run_python_module_lets_through _ _ _ _ _ Hr He). simpl. auto.
  - destruct H as [ns [cfg [s [j [Hl [Hc [Hj [Hch Hr]]]]]]]].
    exists ns, cfg, s, j. apply run_python_module_returns in Hr.
    rewrite Hr. simpl. auto 10.
Qed.

(** With the module loaded and [config] found, what is left to fail is the
    serialization, then the transmission. *)
Lemma first_error_loaded (env : Env) (file_path : pystr) (path : list pystr)
    (ns : namespace) (cfg : pyval) :
  loads env file_path path ns -> ns_get CONFIG ns = Some cfg ->
  first_error env file_path path =
    match to_json (clean cfg) with
    | Raise e => Some e
    | Ok _ =>
        match channel env with
        | Raise e => Some e
        | Ok _ => None
        end
    end.
Proof.
  intros [Hs Hx] Hc. unfold first_error. now rewrite Hs, Hx, Hc.
Qed.

(** Whatever comes of the relay, a loaded module is left with its [config]
    as the deletion step made it. *)
Lemma module_after_relay (env : Env) (file_path : pystr) (path : list pystr)
    (ns : namespace) (cfg : pyval) :
  loads env file_path path ns -> ns_get CONFIG ns = Some cfg ->
  module_ns (snd (run_python_module env file_path (fresh path))) =
    Some (ns_set CONFIG (clean cfg) ns).
Proof.
  intros [Hs Hx] Hc.
  rewrite (proj1 (proj2 (run_python_module_frame env file_path (fresh path)))).
  rewrite relay_steps. cbv zeta.
  change (sys_path (with_sys_path ?p _)) with p.
  change (sys_path (fresh path)) with path.
  rewrite Hs, Hx, Hc.
  now rewrite (proj1 (proj2 (send_message_frame env _ _))).
Qed.

Lemma clean_without_middleware (d : pydict) :
  dict_contains MIDDLEWARE d = false -> clean (PyDict d) = PyDict d.
Proof. intros H. unfold clean. now rewrite dict_del_absent. Qed.

Lemma clean_not_dict (cfg : pyval) : is_dict cfg = false -> clean cfg = cfg.
Proof. now destruct cfg. Qed.

Lemma loads_functional (env : Env) (file_path : pystr) (path : list pystr)
    (ns ns' : namespace) :
  loads env file_path path ns -> loads env file_path path ns' -> ns = ns'.
Proof. intros [_ H] [_ H']. congruence. Qed.

(** The process for a worker that loads and has a [config]. *)
Lemma main_loaded (env : Env) (a0 file_path : pystr) (rest path : list pystr)
    (ns : namespace) (cfg : pyval) :
  loads env file_path path ns -> ns_get CONFIG ns = Some cfg ->
  let out := main env (a0 :: file_path :: rest) (fresh path) in
  match to_json (clean cfg), channel env with
  | Ok j, Ok s => out = (Exit 0, relayed env file_path path ns cfg s j)
  | Ok _, Raise e | Raise e, _ =>
      fst out = Exit 1 /\ stderr (snd out) = diagnostic e /\
      written (snd out) = []
  end.
Proof.
  intros Hl Hc out.
  pose proof (main_by_first_error env a0 file_path rest path) as H.
  cbv zeta in H. fold out in H.
  rewrite (first_error_loaded _ _ _ _ _ Hl Hc) in H.
  destruct (to_json (clean cfg)) as [j|e] eqn:Ej.
  - destruct (channel env) as [s|e] eqn:Ech.
    + destruct H as [ns' [cfg' [s' [j' [Hl' [Hc' [Hj' [Hs' [_ Hout]]]]]]]]].
      pose proof (loads_functional _ _ _ _ _ Hl Hl'). subst ns'.
      assert (cfg' = cfg) by congruence. subst cfg'.
      rewrite Hout. congruence.
    + destruct H as [w1 [_ [Hw [_ Hx]]]].
      rewrite (channel_raises_Exception _ _ Ech) in Hx. tauto.
  - destruct H as [w1 [_ [Hw [_ Hx]]]].
    rewrite (to_json_raises_Exception _ _ Ej) in Hx.
    destruct (channel env); tauto.
Qed.

Import Playground.

(** ** The model at work *)

Example int_accepts_underscores : py_int linux (lit " 12_3 ") = Some 123.
Proof. reflexivity. Qed.

Example int_accepts_sign_and_zeros :
  py_int linux (lit "-007") = Some (-7).
Proof. reflexivity. Qed.

Example int_rejects_words :
  py_int linux (lit "abc") = None /\ py_int linux (lit "1__0") = None /\
  py_int linux (lit "3 4") = None /\ py_int linux [] = None.
Proof. repeat split. Qed.

(** ["e-acute, line break, U+1F600, quote, A"] under [ensure_ascii]. *)
Example string_is_escaped :
  render (JStr [233; 10; 128512; 34; 65]) =
    [34] ++ lit "\u00e9\n\ud83d\ude00" ++ [92; 34] ++ lit "A" ++ [34].
Proof. reflexivity. Qed.

Example repr_quotes : py_repr linux (lit "abc") = lit "'abc'".
Proof. reflexivity. Qed.

Example hello_is_relayed :
  main linux [script; hello_py] start =
    (Exit 0,
     {| sys_path := [lit "/srv/queues"; lit "/opt/runtime"];
        module_ns := Some hello_ns;
        written :=
          [(Descriptor 3,
            lit "{" ++ [34] ++ lit "queue" ++ [34] ++ lit ": " ++ [34]
            ++ lit "hello" ++ [34] ++ lit ", " ++ [34] ++ lit "flow" ++ [34]
            ++ lit ": {" ++ [34] ++ lit "name" ++ [34] ++ lit ": [" ++ [34]
            ++ lit "welcome-flow" ++ [34] ++ lit "], " ++ [34] ++ lit "role"
            ++ [34] ++ lit ": " ++ [34] ++ lit "entry" ++ [34] ++ lit ", "
            ++ [34] ++ lit "step" ++ [34] ++ lit ": " ++ [34] ++ lit "hello"
            ++ [34] ++ lit ", " ++ [34] ++ lit "emits" ++ [34] ++ lit ": ["
            ++ [34] ++ lit "hello.done" ++ [34] ++ lit "]}}" ++ [NL])];
        stdout_buffer := [];
        stderr := [];
        device := sound |}).
Proof. reflexivity. Qed.

Example garbled_descriptor_is_reported :
  fst (main linux_garbled [script; hello_py] start) = Exit 1 /\
  stderr (snd (main linux_garbled [script; hello_py] start)) =
    lit "Error running Python module: invalid literal for int() with base 10: 'abc'"
    ++ [NL].
Proof. split; reflexivity. Qed.

Example missing_file_is_reported :
  fst (main linux [script; lit "nothing.py"] start) = Exit 1 /\
  sys_path (snd (main linux [script; lit "nothing.py"] start)) =
    [lit "/srv"; lit "/opt/runtime"] /\
  stderr (snd (main linux [script; lit "nothing.py"] start)) =
    lit "Error running Python module: [Errno 2] No such file or directory: 'nothing.py'"
    ++ [NL].
Proof. repeat split. Qed.

(** A worker that calls [sys.exit(3)] while it loads. *)
Example quitting_worker_sets_the_status :
  main linux [script; quits_py] start =
    (Exit 3, with_sys_path [lit "/srv/queues"; lit "/opt/runtime"] start).
Proof. reflexivity. Qed.

(** A message with a line break of its own makes a diagnostic of two
    lines. *)
Example noisy_worker_prints_two_lines :
  fst (main linux [script; noisy_py] start) = Exit 1 /\
  count_occ Z.eq_dec (stderr (snd (main linux [script; noisy_py] start))) NL
  = 2%nat.
Proof. split; reflexivity. Qed.

(** * The claims *)

Lemma json_lookup_absent (name : pystr) (ms : list (pystr * json)) :
  ~ In name (map fst ms) -> json_lookup name ms = None.
Proof.
  induction ms as [|[n j] r IH]; cbn [json_lookup map fst]; [reflexivity|].
  intros Hn. rewrite IH by (intros H; apply Hn; now right).
  destruct (pystr_eqb name n) eqn:E; [|reflexivity].
  apply pystr_eqb_eq in E. subst n. exfalso. apply Hn. now left.
Qed.

Lemma json_lookup_member (name : pystr) (j : json)
    (ms : list (pystr * json)) :
  json_lookup name ms = Some j -> In (name, j) ms.
Proof.
  induction ms as [|[n j0] r IH]; cbn [json_lookup]; [discriminate|].
  destruct (json_lookup name r) as [later|].
  - intros [= ->]. right. now apply IH.
  - destruct (pystr_eqb name n) eqn:E; [|discriminate].
    apply pystr_eqb_eq in E. subst n. intros [= ->]. now left.
Qed.

Lemma str_key_name (k : pykey) (name : pystr) :
  (exists s, k = KStr s) -> key_name k = Ok name -> k = KStr name.
Proof. intros [s ->]. cbn [key_name]. now intros [= ->]. Qed.

(** With [str] keys only, the members are a faithful copy: looking a name
    up in the object gives the encoding of what the dictionary holds. *)
Lemma members_of_str_keys (d : pydict) (ms : list (pystr * json)) :
  Forall2 written_as d ms -> str_keys d -> NoDup (map fst d) ->
  forall name v,
    In (KStr name, v) d ->
    exists j, to_json v = Ok j /\ json_lookup name ms = Some j.
Proof.
  induction 1 as [|[k0 v0] [n0 j0] d' ms' [Hk Hv] Hall IH];
    intros Hstr Hnd name v Hin; [contradiction|].
  cbn [fst snd] in Hk, Hv.
  assert (Hstr' : str_keys d').
  { intros k x Hx. apply (Hstr k x). now right. }
  cbn [map fst] in Hnd. inversion Hnd as [|? ? Hfresh Hnd']; subst.
  cbn [json_lookup].
  destruct Hin as [Hin|Hin].
  - injection Hin as -> ->. cbn [key_name] in Hk. injection Hk as <-.
    exists j0. split; [exact Hv|].
    rewrite json_lookup_absent, pystr_eqb_refl; [reflexivity|].
    intros Hn. apply in_map_iff in Hn as [[n j] [Hname Hmem]].
    cbn [fst] in Hname. subst n.
    destruct (written_as_source _ _ _ Hall Hmem) as [[k x] [Hx [Hkx _]]].
    cbn [fst] in Hkx.
    apply (str_key_name k name (Hstr' k x Hx)) in Hkx. subst k.
    apply Hfresh. apply in_map_iff. now exists (KStr name, x).
  - destruct (IH Hstr' Hnd' name v Hin) as [j [Hj Hl]].
    exists j. split; [exact Hj|]. now rewrite Hl.
Qed.

(** C1 does not hold as put: keys that are not [str] are written under
    their JSON spelling, so the number 1 and the text ["1"] both become
    members named ["1"], and the object read back holds one value for the
    two items. *)
Lemma emitted_differs_from_config : ~ emitted_equals_config.
Proof.
  intros H.
  assert (Hl : loads (serving (lit "Linux") [(NODE_CHANNEL_FD, lit "3")]
                        numbered_ns) hello_py search_path numbered_ns)
    by (split; reflexivity).
  specialize (H _ script hello_py [] search_path numbered_ns numbered_config
                (Descriptor 3)
                [(lit "1", JStr (lit "a")); (lit "1", JStr (lit "b"))]
                Hl eq_refl eq_refl (KInt 1) (PyStr (lit "a"))
                (or_introl eq_refl)).
  destruct H as [name [j [Hk [Hv Hlook]]]].
  cbn in Hk, Hv. injection Hk as <-. injection Hv as <-.
  vm_compute in Hlook. discriminate Hlook.
Qed.

(** C1, amended.  For a worker whose [config] is a dictionary [d], the
    JSON object sent has one member for each item of [d] other than the
    top-level [middleware] item, in the same order: the member is named by
    the item's key in its JSON spelling and holds the JSON encoding of the
    item's value; no member is named [middleware].  Whatever reaches a sink
    is the one line with the text of that object; on streams that take what
    they are given it is sent, with status 0, whenever the items can be
    encoded and the channel is there.  When every key is a [str] the object
    read as a mapping equals [d] without [middleware]: each name gives the
    encoding of the value [d] holds for it, and nothing else.  The items
    left are those of [d] under any other key, all of [d] when it has no
    [middleware] key. *)
Theorem emitted_is_config_without_middleware
    (env : Env) (a0 file_path : pystr) (rest path : list pystr)
    (ns : namespace) (d : pydict) :
  loads env file_path path ns ->
  ns_get CONFIG ns = Some (PyDict d) ->
  let out := main env (a0 :: file_path :: rest) (fresh path) in
  (forall s data, In (s, data) (written (snd out)) ->
     exists members text,
       to_members (dict_del MIDDLEWARE d) = Ok members /\
       json_dumps (PyDict (dict_del MIDDLEWARE d)) = Ok text /\
       text = render (JObj members) /\
       channel env = Ok s /\
       data = text ++ [NL]) /\
  (forall members s,
     to_members (dict_del MIDDLEWARE d) = Ok members -> channel env = Ok s ->
     fst out = Exit 0 /\
     written (snd out) = [(s, render (JObj members) ++ [NL])]) /\
  (forall members,
     to_members (dict_del MIDDLEWARE d) = Ok members ->
     Forall2 written_as (dict_del MIDDLEWARE d) members /\
     ~ In MIDDLEWARE (map fst members) /\
     (str_keys d -> NoDup (map fst d) ->
      (forall name v,
         In (KStr name, v) (dict_del MIDDLEWARE d) ->
         exists j, to_json v = Ok j /\ json_lookup name members = Some j) /\
      (forall name j,
         json_lookup name members = Some j ->
         exists v, In (KStr name, v) (dict_del MIDDLEWARE d) /\
                   to_json v = Ok j))) /\
  (forall k v,
     In (k, v) (dict_del MIDDLEWARE d) <-> In (k, v) d /\ k <> KStr MIDDLEWARE) /\
  (dict_contains MIDDLEWARE d = false -> dict_del MIDDLEWARE d = d).
Proof.
  intros Hl Hc out.
  pose proof (main_loaded env a0 file_path rest path ns _ Hl Hc) as H.
  cbv zeta in H. fold out in H.
  cbn [clean] in H. unfold json_dumps. rewrite to_json_dict in *.
  split; [|split; [|split; [|split]]].
  - intros s data Hin.
    destruct (to_members (dict_del MIDDLEWARE d)) as [ms|e].
    + destruct (channel env) as [s'|e].
      * rewrite H in Hin. simpl in Hin. destruct Hin as [Hin|[]].
        injection Hin as <- <-. now exists ms, (render (JObj ms)).
      * destruct H as [_ [_ Hw]]. rewrite Hw in Hin. contradiction.
    + assert (Hw : written (snd out) = []) by (destruct (channel env); tauto).
      rewrite Hw in Hin. contradiction.
  - intros members s Hm Hs. rewrite Hm, Hs in H. now rewrite H.
  - intros members Hm.
    pose proof (to_members_written_as _ _ Hm) as Hall.
    split; [exact Hall|].
    split; [now apply (members_without_middleware d)|].
    intros Hstr Hnd.
    assert (Hstr' : str_keys (dict_del MIDDLEWARE d)).
    { intros k v Hin. apply in_dict_del in Hin as [Hin _]. now apply (Hstr k v). }
    assert (Hnd' : NoDup (map fst (dict_del MIDDLEWARE d))).
    { clear -Hnd. unfold dict_del.
      induction d as [|[k v] r IH]; cbn [filter map fst]; [constructor|].
      cbn [map fst] in Hnd. inversion Hnd as [|? ? Hfresh Hnd']; subst.
      destruct (negb (key_is MIDDLEWARE k)); [|now apply IH].
      cbn [map fst]. constructor; [|now apply IH].
      intros Hin. apply Hfresh. apply in_map_iff in Hin as [[k' v'] [E Hin]].
      cbn [fst] in E. subst k'. apply filter_In in Hin as [Hin _].
      apply in_map_iff. now exists (k, v'). }
    split.
    + now apply members_of_str_keys.
    + intros name j Hlook. apply json_lookup_member in Hlook.
      destruct (written_as_source _ _ _ Hall Hlook) as [[k v] [Hin [Hk Hv]]].
      cbn [fst snd] in Hk, Hv.
      apply (str_key_name k name (Hstr' k v Hin)) in Hk. subst k.
      now exists v.
  - intros k v. apply in_dict_del.
  - apply dict_del_absent.
Qed.

Lemma emitted_is_config_without_middleware_witness :
  loads linux guarded_py search_path guarded_ns /\
  ns_get CONFIG guarded_ns = Some (PyDict guarded_config) /\
  fst (main linux [script; guarded_py] start) = Exit 0 /\
  written (snd (main linux [script; guarded_py] start)) =
    [(Descriptor 3,
      [123; 34; 113; 117; 101; 117; 101; 34; 58; 32; 34; 120; 34; 125; 10])].
Proof.
  assert (Hl : loads linux guarded_py search_path guarded_ns)
    by (split; reflexivity).
  assert (Hc : ns_get CONFIG guarded_ns = Some (PyDict guarded_config))
    by reflexivity.
  split; [exact Hl|]. split; [exact Hc|].
  destruct (emitted_is_config_without_middleware
              linux script guarded_py [] search_path guarded_ns guarded_config
              Hl Hc) as [_ [H _]].
  destruct (H [(lit "queue", JStr (lit "x"))] (Descriptor 3)
              eq_refl eq_refl) as [Hexit Hw].
  split; [exact Hexit|].
  etransitivity; [exact Hw | reflexivity].
Defined.

(** C2 does not hold as put: the relay deletes the [middleware] entry from
    the module's own [config] object. *)
Lemma config_is_mutated : ~ config_never_mutated.
Proof.
  intros H.
  specialize (H linux guarded_py search_path guarded_ns (PyDict guarded_config)).
  assert (Hl : loads linux guarded_py search_path guarded_ns)
    by (split; reflexivity).
  specialize (H Hl eq_refl). vm_compute in H. discriminate H.
Qed.

(** C2, amended.  The relay changes the worker's [config] object in place
    when it is a dictionary with a [middleware] key: after the relay,
    whatever its outcome, the object has lost that entry and holds every
    other key with its value.  When [config] is a dictionary without
    [middleware], or is not a dictionary, nothing is deleted and the module
    is what it was when it finished loading. *)
Theorem config_loses_only_middleware
    (env : Env) (file_path : pystr) (path : list pystr)
    (ns : namespace) (cfg : pyval) :
  loads env file_path path ns ->
  ns_get CONFIG ns = Some cfg ->
  let after :=
    the_module (snd (run_python_module env file_path (fresh path))) in
  match cfg with
  | PyDict d =>
      ns_get CONFIG after = Some (PyDict (dict_del MIDDLEWARE d)) /\
      dict_contains MIDDLEWARE (dict_del MIDDLEWARE d) = false /\
      dict_get MIDDLEWARE (dict_del MIDDLEWARE d) = None /\
      (forall name,
         name <> MIDDLEWARE ->
         dict_get name (dict_del MIDDLEWARE d) = dict_get name d) /\
      (forall k v,
         In (k, v) (dict_del MIDDLEWARE d) <->
         In (k, v) d /\ k <> KStr MIDDLEWARE) /\
      (dict_contains MIDDLEWARE d = false -> after = ns)
  | _ => after = ns
  end.
Proof.
  intros Hl Hc after.
  assert (Ha : after = ns_set CONFIG (clean cfg) ns).
  { unfold after, the_module. now rewrite (module_after_relay _ _ _ _ _ Hl Hc). }
  destruct cfg;
    try (rewrite Ha; cbn [clean]; now apply ns_set_same).
  split; [rewrite Ha; apply ns_get_set_same|].
  split; [apply dict_contains_del|].
  split; [apply dict_get_del_same|].
  split; [intros name Hne; now apply dict_get_del_other|].
  split; [intros k v; apply in_dict_del|].
  intros Hno. rewrite Ha, (clean_without_middleware _ Hno).
  now apply ns_set_same.
Qed.

Lemma config_loses_only_middleware_witness :
  ns_get CONFIG
    (the_module (snd (run_python_module linux guarded_py start))) =
  Some (PyDict [(KStr (lit "queue"), PyStr (lit "x"))]).
Proof.
  assert (Hl : loads linux guarded_py search_path guarded_ns)
    by (split; reflexivity).
  assert (Hc : ns_get CONFIG guarded_ns = Some (PyDict guarded_config))
    by reflexivity.
  exact (proj1 (config_loses_only_middleware
                  linux guarded_py search_path guarded_ns
                  (PyDict guarded_config) Hl Hc)).
Defined.

Lemma main_without_path (env : Env) (argv : list pystr) (w : World) :
  (List.length argv < 2)%nat -> main env argv w = (Exit 1, w).
Proof.
  intros H. unfold main, main_block.
  apply Nat.ltb_lt in H. now rewrite H.
Qed.

Lemma argv_cases (argv : list pystr) :
  (List.length argv < 2)%nat \/
  exists a0 file_path rest, argv = a0 :: file_path :: rest.
Proof.
  destruct argv as [|a0 [|file_path rest]]; simpl; [left; lia | left; lia |].
  right. now exists a0, file_path, rest.
Qed.

Lemma first_error_without_config (env : Env) (file_path : pystr)
    (path : list pystr) (ns : namespace) :
  loads env file_path path ns -> ns_get CONFIG ns = None ->
  first_error env file_path path =
    Some (AttributeError (lit "No 'config' found in module " ++ file_path)).
Proof.
  intros [Hs Hx] Hc. unfold first_error. now rewrite Hs, Hx, Hc.
Qed.

(** C4.  For a module that loads but has no [config] attribute, the process
    exits with status 1, the error stream holds one diagnostic that names
    [config] and contains the module's path, and nothing is sent on the
    output channel. *)
Theorem missing_config_reported
    (env : Env) (a0 file_path : pystr) (rest path : list pystr)
    (ns : namespace) :
  loads env file_path path ns ->
  ns_get CONFIG ns = None ->
  let out := main env (a0 :: file_path :: rest) (fresh path) in
  fst out = Exit 1 /\
  stderr (snd out) =
    lit "Error running Python module: No 'config' found in module "
    ++ file_path ++ [NL] /\
  occurs_in CONFIG (stderr (snd out)) /\
  occurs_in file_path (stderr (snd out)) /\
  written (snd out) = [].
Proof.
  intros Hl Hc out.
  pose proof (main_by_first_error env a0 file_path rest path) as H.
  cbv zeta in H. fold out in H.
  rewrite (first_error_without_config _ _ _ _ Hl Hc) in H.
  destruct H as [w1 [_ [Hw [_ [Hexit Hs]]]]].
  assert (Hs' : stderr (snd out) =
                lit "Error running Python module: No 'config' found in module "
                ++ file_path ++ [NL]).
  { rewrite Hs. unfold diagnostic. cbn [str_of_exc AttributeError].
    change (lit "Error running Python module: No 'config' found in module ")
      with (lit "Error running Python module: "
            ++ lit "No 'config' found in module ").
    now rewrite <- !app_assoc. }
  repeat split; try assumption.
  - rewrite Hs'.
    exists (lit "Error running Python module: No '"),
           (lit "' found in module " ++ file_path ++ [NL]).
    change (lit "Error running Python module: No 'config' found in module ")
      with (lit "Error running Python module: No '" ++ CONFIG
            ++ lit "' found in module ").
    now rewrite <- !app_assoc.
  - rewrite Hs'.
    exists (lit "Error running Python module: No 'config' found in module "),
           [NL].
    reflexivity.
Qed.

Lemma missing_config_reported_witness :
  loads linux bare_py search_path bare_ns /\
  ns_get CONFIG bare_ns = None /\
  fst (main linux [script; bare_py] start) = Exit 1 /\
  stderr (snd (main linux [script; bare_py] start)) =
    lit "Error running Python module: No 'config' found in module /srv/queues/bare.py"
    ++ [NL] /\
  written (snd (main linux [script; bare_py] start)) = [].
Proof.
  assert (Hl : loads linux bare_py search_path bare_ns) by (split; reflexivity).
  assert (Hc : ns_get CONFIG bare_ns = None) by reflexivity.
  split; [exact Hl|]. split; [exact Hc|].
  destruct (missing_config_reported linux script bare_py [] search_path
              bare_ns Hl Hc) as [Hexit [Hs [_ [_ Hw]]]].
  split; [exact Hexit|]. split; [|exact Hw].
  etransitivity; [exact Hs | reflexivity].
Defined.

(** ** The script on streams in any state *)

(** A [send_message] that returns has handed the whole line to the channel:
    standard output has delivered it, a descriptor has taken what it
    takes. *)
Lemma send_message_returns (env : Env) (v : pyval) (w w' : World) :
  stdout_buffer w = [] ->
  send_message env v w = (Ok tt, w') ->
  exists j s,
    to_json v = Ok j /\ channel env = Ok s /\
    stderr w' = stderr w /\ stdout_buffer w' = [] /\
    written w' =
      match s with
      | Stdout => written w ++ [(Stdout, render j ++ [NL])]
      | Descriptor fd =>
          deliver (Descriptor fd)
            (firstn (fd_takes (device w) fd (List.length (render j ++ [NL])))
               (render j ++ [NL]))
            (written w)
      end.
Proof.
  intros Hb.
  unfold send_message, bind, lift, json_dumps, str_encode_utf8.
  destruct (to_json v) as [j|e]; [|discriminate].
  rewrite json_line_encodes. unfold ret at 1.
  unfold channel, on_windows.
  destruct (pystr_eqb (platform_system env) (lit "Windows")).
  - unfold stdout_buffer_write, stdout_buffer_flush.
    destruct (stdout_write_fault (device w)); [discriminate|].
    destruct (stdout_fault env); [discriminate|].
    intros [= <-]. exists j, Stdout. cbn. rewrite Hb. auto.
  - unfold environ_getitem, int_of_str, os_write, ret, raise.
    destruct (environ_get env NODE_CHANNEL_FD) as [value|]; [|discriminate].
    destruct (py_int env value) as [fd|]; [|discriminate].
    destruct (fd_fault env fd); [discriminate|].
    intros [= <-]. exists j, (Descriptor fd). cbn. auto.
Qed.

(** A [send_message] that raises: the exception derives from [Exception];
    the error stream is untouched; off Windows nothing has been delivered;
    on Windows what leaks of the line has been, and the rest is in the
    buffer. *)
Lemma send_message_raises (env : Env) (v : pyval) (w w' : World) (e : exc) :
  stdout_buffer w = [] ->
  send_message env v w = (Raise e, w') ->
  is_Exception e = true /\ stderr w' = stderr w /\
  (w' = w \/
   on_windows env = true /\
   exists j,
     to_json v = Ok j /\
     written w' =
       deliver Stdout
         (firstn (stdout_leak (device w)) (render j ++ [NL])) (written w) /\
     stdout_buffer w' = skipn (stdout_leak (device w)) (render j ++ [NL])).
Proof.
  intros Hb.
  unfold send_message, bind, lift, json_dumps, str_encode_utf8.
  destruct (to_json v) as [j|e0] eqn:Ej.
  2:{ intros [= <- <-]. split; [now apply to_json_raises_Exception in Ej|].
      split; [reflexivity | now left]. }
  rewrite json_line_encodes. unfold ret at 1. unfold on_windows.
  destruct (pystr_eqb (platform_system env) (lit "Windows")).
  - unfold stdout_buffer_write, stdout_buffer_flush, stdout_broken.
    destruct (stdout_write_fault (device w)) as [msg|].
    + intros [= <- <-]. cbn. rewrite Hb. cbn [app].
      split; [reflexivity|]. split; [reflexivity|]. right.
      split; [reflexivity|]. now exists j.
    + destruct (stdout_fault env) as [msg|]; [|discriminate].
      intros [= <- <-]. cbn. rewrite Hb. cbn [app].
      split; [reflexivity|]. split; [reflexivity|]. right.
      split; [reflexivity|]. now exists j.
  - unfold environ_getitem, int_of_str, os_write, ret, raise.
    destruct (environ_get env NODE_CHANNEL_FD) as [value|];
      [|intros [= <- <-]; cbn; auto].
    destruct (py_int env value) as [fd|]; [|intros [= <- <-]; cbn; auto].
    destruct (fd_fault env fd); [|discriminate].
    intros [= <- <-]. cbn. auto.
Qed.

(** The [try] block on streams in any state. *)
Lemma relay_on_device (env : Env) (file_path : pystr) (dev : Device)
    (path : list pystr) :
  let r := relay env file_path (boot dev path) in
  match fst r with
  | Ok _ =>
      exists ns cfg j s,
        loads env file_path path ns /\ ns_get CONFIG ns = Some cfg /\
        to_json (clean cfg) = Ok j /\ channel env = Ok s /\
        stderr (snd r) = [] /\ stdout_buffer (snd r) = [] /\
        module_ns (snd r) = Some (ns_set CONFIG (clean cfg) ns) /\
        written (snd r) =
          match s with
          | Stdout => [(Stdout, render j ++ [NL])]
          | Descriptor fd =>
              deliver (Descriptor fd)
                (firstn (fd_takes dev fd (List.length (render j ++ [NL])))
                   (render j ++ [NL])) []
          end
  | Raise e =>
      stderr (snd r) = [] /\
      (is_Exception e = false ->
       exec_module env (add_dir (module_dir env file_path) path)
         (basename env (module_dir env file_path)) file_path = Raise e) /\
      (written (snd r) = [] /\ stdout_buffer (snd r) = [] \/
       on_windows env = true /\ is_Exception e = true /\
       exists j,
         written (snd r) =
           deliver Stdout (firstn (stdout_leak dev) (render j ++ [NL])) [] /\
         stdout_buffer (snd r) = skipn (stdout_leak dev) (render j ++ [NL]))
  end.
Proof.
  cbv zeta. rewrite relay_steps. cbv zeta. unfold loads.
  change (sys_path (with_sys_path ?p _)) with p.
  change (sys_path (boot dev path)) with path.
  destruct (spec_has_loader env _ file_path);
    [|cbn; split; [reflexivity|]; split; [discriminate | now left]].
  destruct (exec_module env _ _ file_path) as [ns|e] eqn:Ex;
    [|cbn; split; [reflexivity|]; split; [reflexivity | now left]].
  destruct (ns_get CONFIG ns) as [cfg|] eqn:Ecfg;
    [|cbn; split; [reflexivity|]; split; [discriminate | now left]].
  set (w2 := with_module (ns_set CONFIG (clean cfg) ns)
               (with_sys_path (add_dir (module_dir env file_path) path)
                  (boot dev path))).
  assert (Hb : stdout_buffer w2 = []) by reflexivity.
  destruct (send_message env (clean cfg) w2) as [[[]|e] w'] eqn:Es; cbn [fst snd].
  - destruct (send_message_returns _ _ _ _ Hb Es)
      as [j [s [Hj [Hs [Herr [Hbuf Hw]]]]]].
    pose proof (send_message_frame env (clean cfg) w2) as [_ [Hm _]].
    rewrite Es in Hm. cbn [snd] in Hm.
    exists ns, cfg, j, s. repeat split; try assumption.
  - destruct (send_message_raises _ _ _ _ _ Hb Es) as [He [Herr Hcase]].
    split; [exact Herr|]. split; [intros Hn; congruence|].
    destruct Hcase as [-> | [Hwin [j [_ [Hw Hbuf]]]]]; [now left|].
    right. split; [exact Hwin|]. split; [exact He|]. now exists j.
Qed.

(** The end of the script by the end of its [try] block. *)
Lemma main_by_relay (env : Env) (a0 file_path : pystr) (rest : list pystr)
    (w : World) :
  main env (a0 :: file_path :: rest) w =
    match relay env file_path w with
    | (Ok _, w') => (Exit 0, w')
    | (Raise e, w1) =>
        if is_Exception e
        then (Exit 1, with_stderr (stderr w1 ++ diagnostic e) w1)
        else (interpreter_exit (@Raise unit e), w1)
    end.
Proof.
  rewrite main_with_path.
  destruct (relay env file_path w) as [[[]|e] w1] eqn:Hr.
  - now rewrite (run_python_module_returns _ _ _ _ Hr).
  - destruct (is_Exception e) eqn:He.
    + now rewrite (run_python_module_catches _ _ _ _ _ Hr He).
    + now rewrite (run_python_module_lets_through _ _ _ _ _ Hr He).
Qed.

Lemma main_block_with_path (env : Env) (a0 file_path : pystr)
    (rest : list pystr) (w : World) :
  main_block env (a0 :: file_path :: rest) w =
    run_python_module env file_path w.
Proof. reflexivity. Qed.

Lemma main_is_main_block (env : Env) (argv : list pystr) (w : World) :
  main env argv w =
    (interpreter_exit (fst (main_block env argv w)),
     snd (main_block env argv w)).
Proof. unfold main. now destruct (main_block env argv w). Qed.

Lemma send_message_on_windows (env : Env) (v : pyval) (j : json) (w : World) :
  to_json v = Ok j -> on_windows env = true -> stdout_buffer w = [] ->
  send_message env v w =
    match stdout_write_fault (device w) with
    | Some msg => (Raise (OSError msg), stdout_broken (render j ++ [NL]) w)
    | None =>
        match stdout_fault env with
        | Some msg =>
            (Raise (OSError msg),
             stdout_broken (render j ++ [NL])
               (with_stdout_buffer (render j ++ [NL]) w))
        | None =>
            (Ok tt,
             with_stdout_buffer []
               (with_written (written w ++ [(Stdout, render j ++ [NL])]) w))
        end
    end.
Proof.
  intros Hj Hw Hb.
  unfold send_message, bind, lift, json_dumps, str_encode_utf8.
  rewrite Hj, json_line_encodes. unfold ret at 1.
  unfold on_windows in Hw. rewrite Hw.
  unfold stdout_buffer_write, stdout_buffer_flush.
  destruct (stdout_write_fault (device w)); [now rewrite Hb|].
  destruct (stdout_fault env); cbn [stdout_buffer with_stdout_buffer];
    now rewrite Hb.
Qed.

Lemma send_message_off_windows (env : Env) (v : pyval) (j : json) (w : World) :
  to_json v = Ok j -> on_windows env = false ->
  send_message env v w =
    match channel env with
    | Raise e => (Raise e, w)
    | Ok (Descriptor fd) =>
        (Ok tt,
         with_written
           (deliver (Descriptor fd)
              (firstn (fd_takes (device w) fd (List.length (render j ++ [NL])))
                 (render j ++ [NL]))
              (written w)) w)
    | Ok Stdout => (Ok tt, w)
    end.
Proof.
  intros Hj Hw.
  unfold send_message, bind, lift, json_dumps, str_encode_utf8.
  rewrite Hj, json_line_encodes. unfold ret at 1.
  unfold channel. rewrite Hw. unfold on_windows in Hw. rewrite Hw.
  unfold environ_getitem, int_of_str, os_write, ret, raise.
  destruct (environ_get env NODE_CHANNEL_FD) as [value|]; [|reflexivity].
  destruct (py_int env value) as [fd|]; [|reflexivity].
  now destruct (fd_fault env fd).
Qed.

Lemma shutdown_nothing_pending (env : Env) (out : termination * World) :
  stdout_buffer (snd out) = [] ->
  written (snd (shutdown env out)) = written (snd out).
Proof.
  intros Hb. unfold shutdown, flush_at_exit.
  destruct (fst out); cbn [stdout_buffer with_stderr]; now rewrite Hb.
Qed.

Lemma exit_status_1 (env : Env) : exit_status env 1 = 1.
Proof. unfold exit_status. now destruct (on_windows env). Qed.

Lemma unannounced_channel_raises (env : Env) :
  on_windows env = false -> channel_unannounced env ->
  exists e,
    channel env = Raise e /\
    (e = KeyError (py_repr env NODE_CHANNEL_FD) \/
     exists value,
       environ_get env NODE_CHANNEL_FD = Some value /\
       e = ValueError (invalid_literal env value)).
Proof.
  intros Hw [Hnone | [value [Hsome Hint]]]; unfold channel; rewrite Hw.
  - rewrite Hnone. eexists. split; [reflexivity | now left].
  - rewrite Hsome, Hint. eexists. split; [reflexivity|].
    right. now exists value.
Qed.

(** C3 does not hold as put: the message is serialized before the channel
    is looked up, so an earlier failure is the one reported. *)
Lemma unannounced_channel_not_always_reported :
  ~ unannounced_channel_always_reported.
Proof.
  intros H.
  specialize (H linux_unset script handler_py [] search_path eq_refl
                (or_introl eq_refl)).
  destruct H as [_ [[e [He Hs]] _]].
  vm_compute in He. injection He as <-.
  vm_compute in Hs. discriminate Hs.
Qed.

(** C3, amended.  Off Windows, with [NODE_CHANNEL_FD] absent or not a
    number, nothing is written to standard output or to any descriptor,
    whatever the arguments and the state of the streams, also once the
    interpreter has shut down; and when the module loads, has a [config]
    and what is left of it after the deletion can be serialized, the
    process exits with status 1 after printing the diagnostic of the
    channel's failure: the [KeyError] naming the variable, or the
    [ValueError] of [int], which quotes the value by the first 200
    characters of its [repr]. *)
Theorem unannounced_channel_reported
    (env : Env) (argv : list pystr) (dev : Device) (path : list pystr) :
  on_windows env = false ->
  channel_unannounced env ->
  let out := main env argv (boot dev path) in
  let fin := process env argv (boot dev path) in
  written (snd out) = [] /\
  stdout_buffer (snd out) = [] /\
  written (snd fin) = [] /\
  (forall a0 file_path rest ns cfg j,
     argv = a0 :: file_path :: rest ->
     loads env file_path path ns -> ns_get CONFIG ns = Some cfg ->
     to_json (clean cfg) = Ok j ->
     fst out = Exit 1 /\
     fin = out /\
     exists e,
       channel env = Raise e /\
       stderr (snd out) = diagnostic e /\
       (e = KeyError (py_repr env NODE_CHANNEL_FD) \/
        exists value,
          environ_get env NODE_CHANNEL_FD = Some value /\
          e = ValueError (invalid_literal env value))).
Proof.
  intros Hw Hu out fin.
  destruct (unannounced_channel_raises env Hw Hu) as [e [He Hkind]].
  assert (Hquiet : written (snd out) = [] /\ stdout_buffer (snd out) = []).
  { unfold out. destruct (argv_cases argv) as [Hshort | [a0 [fp [rest ->]]]].
    - rewrite (main_without_path _ _ _ Hshort). now split.
    - rewrite main_by_relay.
      pose proof (relay_on_device env fp dev path) as R. cbv zeta in R.
      destruct (relay env fp (boot dev path)) as [[[]|e'] w1]; cbn [fst snd] in R.
      + destruct R as [ns [cfg [j [s [_ [_ [_ [Hs _]]]]]]]]. congruence.
      + destruct R as [_ [_ [Hq | [Hwin _]]]]; [|congruence].
        now destruct (is_Exception e'). }
  split; [apply Hquiet|]. split; [apply Hquiet|].
  split.
  { unfold fin, process. fold out.
    rewrite shutdown_nothing_pending; apply Hquiet. }
  intros a0 fp rest ns cfg j -> [Hs Hx] Hc Hj.
  assert (Hr : relay env fp (boot dev path) =
               (Raise e,
                with_module (ns_set CONFIG (clean cfg) ns)
                  (with_sys_path (add_dir (module_dir env fp) path)
                     (boot dev path)))).
  { rewrite relay_steps. cbv zeta.
    change (sys_path (with_sys_path ?p _)) with p.
    change (sys_path (boot dev path)) with path.
    rewrite Hs, Hx, Hc.
    rewrite (send_message_off_windows env _ j _ Hj Hw). now rewrite He. }
  assert (Hout : out =
                 (Exit 1,
                  with_stderr (diagnostic e)
                    (with_module (ns_set CONFIG (clean cfg) ns)
                       (with_sys_path (add_dir (module_dir env fp) path)
                          (boot dev path))))).
  { unfold out. rewrite main_by_relay, Hr.
    now rewrite (channel_raises_Exception _ _ He). }
  split; [now rewrite Hout|].
  split.
  { unfold fin, process. fold out. rewrite Hout.
    unfold shutdown, flush_at_exit. cbn [fst snd].
    now rewrite exit_status_1. }
  exists e. split; [exact He|]. split; [now rewrite Hout | exact Hkind].
Qed.

Lemma unannounced_channel_reported_witness :
  on_windows linux_unset = false /\
  channel_unannounced linux_unset /\
  process linux_unset [script; hello_py] start =
    main linux_unset [script; hello_py] start /\
  fst (main linux_unset [script; hello_py] start) = Exit 1 /\
  written (snd (main linux_unset [script; hello_py] start)) = [] /\
  stderr (snd (main linux_unset [script; hello_py] start)) =
    lit "Error running Python module: 'NODE_CHANNEL_FD'" ++ [NL].
Proof.
  assert (Hw : on_windows linux_unset = false) by reflexivity.
  assert (Hu : channel_unannounced linux_unset) by (left; reflexivity).
  split; [exact Hw|]. split; [exact Hu|].
  destruct (unannounced_channel_reported
              linux_unset [script; hello_py] sound search_path Hw Hu)
    as [Hwr [_ [_ H]]].
  assert (Hl : loads linux_unset hello_py search_path hello_ns)
    by (split; reflexivity).
  destruct (H script hello_py [] hello_ns (PyDict hello_config)
              _ eq_refl Hl eq_refl eq_refl) as [Hexit [Hfin [e [He [Hs _]]]]].
  split; [exact Hfin|]. split; [exact Hexit|]. split; [exact Hwr|].
  etransitivity; [exact Hs|].
  vm_compute in He. injection He as <-. reflexivity.
Defined.

(** C5 does not hold as put: on Windows a flush of standard output that
    fails may already have passed on the beginning of the line, and the
    flush at shutdown may fail likewise; the parent then holds ten bytes of
    an unfinished line. *)
Lemma output_can_be_partial : ~ output_always_whole_or_nothing.
Proof.
  intros H.
  specialize (H windows_broken [script; hello_py] leaky search_path).
  cbv zeta in H.
  assert (E : written (snd (process windows_broken [script; hello_py]
                              (boot leaky search_path))) =
              [(Stdout, [123; 34; 113; 117; 101]);
               (Stdout, [117; 101; 34; 58; 32])])
    by (vm_compute; reflexivity).
  rewrite E in H. destruct H as [H | [s [j H]]]; discriminate H.
Qed.

(** C5, amended.  The first failure ends the [try] block, and a failure
    that comes before anything is handed to the channel (the module does
    not load, [config] is missing or cannot be serialized, and, off
    Windows, the descriptor is not announced or [os.write] raises) leaves
    the channel without a single byte, also after the interpreter has shut
    down.  Off Windows, when nothing fails, the descriptor has received
    what it took of the line, all of it on a descriptor that takes the
    whole write.  On Windows a successful flush has delivered the whole
    line, and a write or flush that fails has delivered what leaked of
    it. *)
Theorem output_by_first_error
    (env : Env) (a0 file_path : pystr) (rest : list pystr)
    (dev : Device) (path : list pystr) :
  let tried := fst (relay env file_path (boot dev path)) in
  let out := main env (a0 :: file_path :: rest) (boot dev path) in
  let fin := process env (a0 :: file_path :: rest) (boot dev path) in
  match early_error env file_path path, line_to_send env file_path path with
  | Some e, _ =>
      tried = Raise e /\ written (snd out) = [] /\ written (snd fin) = []
  | None, Some line =>
      if on_windows env then
        match tried with
        | Ok _ => written (snd fin) = [(Stdout, line)]
        | Raise _ =>
            written (snd out) =
              deliver Stdout (firstn (stdout_leak dev) line) []
        end
      else
        match channel env with
        | Raise e =>
            tried = Raise e /\ written (snd out) = [] /\
            written (snd fin) = []
        | Ok s =>
            tried = Ok tt /\
            exists fd,
              s = Descriptor fd /\
              written (snd fin) =
                deliver s (firstn (fd_takes dev fd (List.length line)) line) [] /\
              (fd_takes dev fd (List.length line) = List.length line ->
               written (snd fin) = [(s, line)])
        end
  | None, None => False
  end.
Proof.
  cbv zeta. unfold process. rewrite main_by_relay.
  unfold early_error, line_to_send. rewrite relay_steps. cbv zeta.
  change (sys_path (with_sys_path ?p _)) with p.
  change (sys_path (boot dev path)) with path.
  destruct (spec_has_loader env _ file_path); [|repeat split].
  destruct (exec_module env _ _ file_path) as [ns|e] eqn:Ex.
  2:{ cbn [fst snd]. destruct (is_Exception e); [repeat split|].
      split; [reflexivity|]. split; [reflexivity|].
      now rewrite shutdown_nothing_pending. }
  destruct (ns_get CONFIG ns) as [cfg|] eqn:Ecfg; [|repeat split].
  destruct (to_json (clean cfg)) as [j|e] eqn:Ej.
  2:{ rewrite (send_message_unserializable _ _ _ _ Ej). cbn [fst snd].
      rewrite (to_json_raises_Exception _ _ Ej). repeat split. }
  set (w2 := with_module (ns_set CONFIG (clean cfg) ns)
               (with_sys_path (add_dir (module_dir env file_path) path)
                  (boot dev path))).
  destruct (on_windows env) eqn:Hw.
  - rewrite (send_message_on_windows env _ j w2 Ej Hw eq_refl).
    change (device w2) with dev.
    destruct (stdout_write_fault dev); [reflexivity|].
    destruct (stdout_fault env); reflexivity.
  - rewrite (send_message_off_windows env _ j w2 Ej Hw).
    destruct (channel env) as [[|fd]|e] eqn:Ec.
    + exfalso. unfold channel in Ec. rewrite Hw in Ec.
      destruct (environ_get env NODE_CHANNEL_FD) as [value|]; [|discriminate].
      destruct (py_int env value) as [n|]; [|discriminate].
      destruct (fd_fault env n); discriminate.
    + split; [reflexivity|]. exists fd. split; [reflexivity|].
      rewrite shutdown_nothing_pending by reflexivity.
      split; [reflexivity|]. intros Htakes. cbn [snd written with_written].
      change (device w2) with dev. rewrite Htakes, firstn_all.
      apply deliver_line.
    + cbn [fst snd]. rewrite (channel_raises_Exception _ _ Ec). repeat split.
Qed.

(** A descriptor that takes five bytes: the script ends as if all had gone
    well. *)
Example short_write_goes_unnoticed :
  fst (process linux [script; hello_py] (boot narrow search_path)) = Exit 0 /\
  written (snd (process linux [script; hello_py] (boot narrow search_path))) =
    [(Descriptor 3, [123; 34] ++ lit "que")].
Proof. split; reflexivity. Qed.

Lemma to_json_object_iff (v : pyval) (j : json) :
  to_json v = Ok j -> ((exists members, j = JObj members) <-> is_dict v = true).
Proof.
  destruct v; cbn [is_dict];
    try (cbn [to_json]; intros [= <-]; split;
         [intros [ms Hms]; discriminate Hms | discriminate]).
  - destruct (to_json_elems elems) as [-> _].
    destruct (to_elems elems); [|discriminate]. intros [= <-].
    split; [intros [ms Hms]; discriminate Hms | discriminate].
  - destruct (to_json_elems elems) as [E1 E2]. rewrite E2, E1.
    destruct (to_elems elems); [|discriminate]. intros [= <-].
    split; [intros [ms Hms]; discriminate Hms | discriminate].
  - rewrite to_json_dict.
    destruct (to_members items) as [ms|]; [|discriminate]. intros [= <-].
    split; [reflexivity | intros _; now exists ms].
  - discriminate.
Qed.

Lemma shutdown_after_success (env : Env) (w : World) :
  stdout_buffer w = [] -> shutdown env (Exit 0, w) = (Exit 0, w).
Proof.
  intros Hb. unfold shutdown, flush_at_exit, exit_status. cbn [fst snd].
  rewrite Hb. now destruct (on_windows env).
Qed.

(** C6 does not hold as put: a [config] that is a list is relayed as it
    is, and the message is a JSON array. *)
Lemma success_can_send_an_array : ~ success_sends_json_object.
Proof.
  intros H.
  destruct (H linux [script; listing_py] search_path
              (snd (main_block linux [script; listing_py] (fresh search_path)))
              eq_refl) as [s [members Hw]].
  assert (E : written (snd (main_block linux [script; listing_py]
                              (fresh search_path))) =
              [(Descriptor 3, [91; 34; 97; 34; 44; 32; 50; 93; 10])])
    by (vm_compute; reflexivity).
  rewrite E in Hw. cbn [render] in Hw. discriminate Hw.
Qed.

(** C6, amended.  When the script returns without raising, the process
    ends with status 0, also after the interpreter has shut down, and the
    channel has been handed exactly one message: the text [json.dumps]
    gives for the module's [config] as the deletion left it, followed by
    one line break, with nothing before or after.  That text is a JSON
    object exactly when [config] is a dictionary (a list gives an array, a
    number a number, and so on).  It is printable ASCII, so the bytes are
    its UTF-8 encoding and the line break at the end is the only one.
    Standard output has delivered the whole message; a descriptor has
    received what it took of it, all of it when it takes the whole write.
    Nothing is left in the buffer of standard output and the error stream
    is empty. *)
Theorem success_sends_one_json_line
    (env : Env) (argv : list pystr) (dev : Device) (path : list pystr)
    (w' : World) :
  main_block env argv (boot dev path) = (Ok tt, w') ->
  main env argv (boot dev path) = (Exit 0, w') /\
  process env argv (boot dev path) = (Exit 0, w') /\
  exists s j ns cfg,
    channel env = Ok s /\
    module_ns w' = Some ns /\ ns_get CONFIG ns = Some cfg /\
    json_dumps cfg = Ok (render j) /\ to_json cfg = Ok j /\
    ((exists members, j = JObj members) <-> is_dict cfg = true) /\
    utf8_encode (render j ++ [NL]) = Some (render j ++ [NL]) /\
    Forall printable_ascii (render j) /\
    one_line (render j ++ [NL]) /\
    stdout_buffer w' = [] /\ stderr w' = [] /\
    written w' =
      match s with
      | Stdout => [(Stdout, render j ++ [NL])]
      | Descriptor fd =>
          deliver s
            (firstn (fd_takes dev fd (List.length (render j ++ [NL])))
               (render j ++ [NL])) []
      end /\
    (forall fd,
       s = Descriptor fd ->
       fd_takes dev fd (List.length (render j ++ [NL])) =
         List.length (render j ++ [NL]) ->
       written w' = [(s, render j ++ [NL])]).
Proof.
  intros Hok.
  destruct (argv_cases argv) as [Hshort | [a0 [fp [rest ->]]]].
  { unfold main_block in Hok. apply Nat.ltb_lt in Hshort.
    rewrite Hshort in Hok. discriminate Hok. }
  rewrite main_block_with_path in Hok.
  pose proof (relay_on_device env fp dev path) as R. cbv zeta in R.
  assert (Hr : relay env fp (boot dev path) = (Ok tt, w')).
  { destruct (relay env fp (boot dev path)) as [[[]|e] w1] eqn:Hr.
    - rewrite (run_python_module_returns _ _ _ _ Hr) in Hok. exact Hok.
    - exfalso. destruct (is_Exception e) eqn:He.
      + rewrite (run_python_module_catches _ _ _ _ _ Hr He) in Hok.
        discriminate Hok.
      + rewrite (run_python_module_lets_through _ _ _ _ _ Hr He) in Hok.
        discriminate Hok. }
  rewrite Hr in R. cbn [fst snd] in R.
  destruct R as [ns [cfg [j [s [_ [_ [Hj [Hs [Herr [Hbuf [Hm Hw]]]]]]]]]]].
  assert (Hmain : main env (a0 :: fp :: rest) (boot dev path) = (Exit 0, w')).
  { now rewrite main_by_relay, Hr. }
  split; [exact Hmain|].
  split; [unfold process; rewrite Hmain; now apply shutdown_after_success|].
  exists s, j, (ns_set CONFIG (clean cfg) ns), (clean cfg).
  split; [exact Hs|]. split; [exact Hm|]. split; [apply ns_get_set_same|].
  split; [unfold json_dumps; now rewrite Hj|]. split; [exact Hj|].
  split; [now apply to_json_object_iff|].
  split; [apply json_line_encodes|].
  split; [apply render_printable|].
  split; [exists (render j); split; [reflexivity | apply render_no_newline]|].
  split; [exact Hbuf|]. split; [exact Herr|].
  split; [rewrite Hw; now destruct s|].
  intros fd -> Htakes. rewrite Hw, Htakes, firstn_all. apply deliver_line.
Qed.

Lemma success_sends_one_json_line_witness :
  process linux [script; hello_py] start =
    (Exit 0, snd (main_block linux [script; hello_py] start)) /\
  written (snd (main_block linux [script; hello_py] start)) =
    [(Descriptor 3,
      lit "{" ++ [34] ++ lit "queue" ++ [34] ++ lit ": " ++ [34]
      ++ lit "hello" ++ [34] ++ lit ", " ++ [34] ++ lit "flow" ++ [34]
      ++ lit ": {" ++ [34] ++ lit "name" ++ [34] ++ lit ": [" ++ [34]
      ++ lit "welcome-flow" ++ [34] ++ lit "], " ++ [34] ++ lit "role"
      ++ [34] ++ lit ": " ++ [34] ++ lit "entry" ++ [34] ++ lit ", "
      ++ [34] ++ lit "step" ++ [34] ++ lit ": " ++ [34] ++ lit "hello"
      ++ [34] ++ lit ", " ++ [34] ++ lit "emits" ++ [34] ++ lit ": ["
      ++ [34] ++ lit "hello.done" ++ [34] ++ lit "]}}" ++ [NL])].
Proof.
  assert (Hok : main_block linux [script; hello_py] (boot sound search_path) =
                (Ok tt, snd (main_block linux [script; hello_py] start)))
    by reflexivity.
  split.
  - exact (proj1 (proj2 (success_sends_one_json_line _ _ _ _ _ Hok))).
  - reflexivity.
Defined.

(** C7.  Invoked without a module path, the process exits with status 1
    and leaves everything as it was: nothing reaches the output channel or
    the error stream. *)
Theorem no_argument_exits_1_silently
    (env : Env) (argv : list pystr) (w : World) :
  (List.length argv < 2)%nat ->
  main env argv w = (Exit 1, w).
Proof.
  intros H. unfold main, main_block, sys_exit, raise.
  destruct argv as [|a0 [|a1 rest]]; simpl in *; [reflexivity | reflexivity | lia].
Qed.

Lemma no_argument_exits_1_silently_witness :
  (List.length [script] < 2)%nat /\
  main linux [script] start = (Exit 1, start) /\
  written start = [] /\ stderr start = [].
Proof.
  assert (H : (List.length [script] < 2)%nat) by (simpl; lia).
  split; [exact H|].
  split; [exact (no_argument_exits_1_silently linux [script] start H)|].
  split; reflexivity.
Defined.

(** C8.  The search path changes in one way only: after
    [run_python_module], whatever its outcome, the path holds the module's
    directory; a path that already held it is unchanged, and otherwise the
    directory is put in front of the unchanged path.  Without a module path
    the search path is not touched. *)
Theorem search_path_gains_module_dir
    (env : Env) (file_path : pystr) (w : World) :
  let d := module_dir env file_path in
  let w' := snd (run_python_module env file_path w) in
  In d (sys_path w') /\
  (In d (sys_path w) -> sys_path w' = sys_path w) /\
  (~ In d (sys_path w) -> sys_path w' = d :: sys_path w) /\
  (forall a0 rest,
     sys_path (snd (main env (a0 :: file_path :: rest) w)) = sys_path w') /\
  (forall argv, (List.length argv < 2)%nat ->
     sys_path (snd (main env argv w)) = sys_path w).
Proof.
  intros d w'.
  assert (Hp : sys_path w' = add_dir d (sys_path w)).
  { unfold w'. rewrite (proj1 (run_python_module_frame env file_path w)).
    apply relay_sys_path. }
  unfold add_dir in Hp.
  destruct (existsb (pystr_eqb d) (sys_path w)) eqn:E.
  - apply existsb_pystr_In in E.
    split; [now rewrite Hp|]. split; [now intros _|].
    split; [intros Hn; contradiction|]. split.
    + intros a0 rest. now rewrite main_with_path.
    + intros argv Hshort. now rewrite (main_without_path _ _ _ Hshort).
  - assert (Hn : ~ In d (sys_path w)).
    { intros Hin. apply existsb_pystr_In in Hin. congruence. }
    split; [rewrite Hp; now left|]. split; [intros Hin; contradiction|].
    split; [now intros _|]. split.
    + intros a0 rest. now rewrite main_with_path.
    + intros argv Hshort. now rewrite (main_without_path _ _ _ Hshort).
Qed.

Lemma first_error_unserializable (env : Env) (file_path : pystr)
    (path : list pystr) (ns : namespace) (cfg : pyval) (e : exc) :
  loads env file_path path ns -> ns_get CONFIG ns = Some cfg ->
  to_json (clean cfg) = Raise e ->
  first_error env file_path path = Some e.
Proof.
  intros Hl Hc He. rewrite (first_error_loaded _ _ _ _ _ Hl Hc). now rewrite He.
Qed.

(** C9.  For a worker whose [config] is not a dictionary, the deletion
    step does nothing, so the module is left as it was loaded, and the
    value goes to [json.dumps] as it is: when it can be serialized and the
    channel is there, its text and a line break are sent and the status is
    0; when it cannot, the exception of [json.dumps] takes the common
    path, the handler prints its message and the status is 1, with nothing
    sent. *)
Theorem non_mapping_config_relayed_as_is
    (env : Env) (a0 file_path : pystr) (rest path : list pystr)
    (ns : namespace) (cfg : pyval) :
  loads env file_path path ns ->
  ns_get CONFIG ns = Some cfg ->
  is_dict cfg = false ->
  let out := main env (a0 :: file_path :: rest) (fresh path) in
  module_ns (snd out) = Some ns /\
  (forall text s,
     json_dumps cfg = Ok text -> channel env = Ok s ->
     fst out = Exit 0 /\ written (snd out) = [(s, text ++ [NL])] /\
     stderr (snd out) = []) /\
  (forall e,
     json_dumps cfg = Raise e ->
     first_error env file_path path = Some e /\
     fst out = Exit 1 /\ stderr (snd out) = diagnostic e /\
     written (snd out) = []).
Proof.
  intros Hl Hc Hd out.
  pose proof (main_loaded env a0 file_path rest path ns cfg Hl Hc) as H.
  cbv zeta in H. fold out in H.
  pose proof (clean_not_dict cfg Hd) as Hclean. rewrite Hclean in H.
  split; [|split].
  - unfold out. rewrite main_with_path. cbn [snd].
    rewrite (module_after_relay _ _ _ _ _ Hl Hc), Hclean.
    now rewrite (ns_set_same _ _ _ Hc).
  - intros text s Ht Hs. unfold json_dumps in Ht.
    destruct (to_json cfg) as [j|]; [|discriminate]. injection Ht as <-.
    rewrite Hs in H. now rewrite H.
  - intros e He. unfold json_dumps in He.
    destruct (to_json cfg) as [j|e'] eqn:Ej; [discriminate|].
    injection He as ->. split; [|destruct (channel env); exact H].
    apply (first_error_unserializable _ _ _ _ _ _ Hl Hc). now rewrite Hclean.
Qed.

Lemma non_mapping_config_relayed_as_is_witness :
  loads windows listing_py search_path listing_ns /\
  ns_get CONFIG listing_ns = Some (PyList [PyStr (lit "a"); PyInt 2]) /\
  fst (main windows [script; listing_py] start) = Exit 0 /\
  written (snd (main windows [script; listing_py] start)) =
    [(Stdout, lit "[" ++ [34; 97; 34] ++ lit ", 2]" ++ [NL])].
Proof.
  assert (Hl : loads windows listing_py search_path listing_ns)
    by (split; reflexivity).
  assert (Hc : ns_get CONFIG listing_ns = Some (PyList [PyStr (lit "a"); PyInt 2]))
    by reflexivity.
  split; [exact Hl|]. split; [exact Hc|].
  destruct (non_mapping_config_relayed_as_is
              windows script listing_py [] search_path listing_ns _
              Hl Hc eq_refl) as [_ [H _]].
  destruct (H (lit "[" ++ [34; 97; 34] ++ lit ", 2]") Stdout eq_refl eq_refl)
    as [Hexit [Hw _]].
  split; [exact Hexit | exact Hw].
Defined.






(** * Further properties of the code *)

(** ** The search path over repeated calls *)

Lemma run_python_module_sys_path (env : Env) (file_path : pystr) (w : World) :
  sys_path (snd (run_python_module env file_path w)) =
    add_dir (module_dir env file_path) (sys_path w).
Proof.
  rewrite (proj1 (run_python_module_frame env file_path w)).
  apply relay_sys_path.
Qed.

(** X1.  A search path that names no directory twice still names none twice
    after [run_python_module], whatever the outcome of the call. *)
Theorem search_path_stays_duplicate_free
    (env : Env) (file_path : pystr) (w : World) :
  NoDup (sys_path w) ->
  NoDup (sys_path (snd (run_python_module env file_path w))).
Proof.
  intros Hnd. rewrite run_python_module_sys_path. unfold add_dir.
  destruct (existsb (pystr_eqb (module_dir env file_path)) (sys_path w)) eqn:E;
    [exact Hnd|].
  constructor; [|exact Hnd].
  intros Hin. apply existsb_pystr_In in Hin. congruence.
Qed.

Lemma search_path_stays_duplicate_free_witness :
  NoDup (sys_path start) /\
  NoDup (sys_path (snd (run_python_module linux hello_py start))).
Proof.
  assert (H : NoDup (sys_path start)).
  { repeat constructor. intros []. }
  split; [exact H|].
  exact (search_path_stays_duplicate_free linux hello_py start H).
Defined.

(** X2.  A second call for a file of the same directory, the same file
    included, leaves the search path as the first call left it: the
    directory is not inserted again. *)
Theorem second_call_keeps_search_path
    (env : Env) (file_path file_path' : pystr) (w : World) :
  module_dir env file_path' = module_dir env file_path ->
  let w1 := snd (run_python_module env file_path w) in
  sys_path (snd (run_python_module env file_path' w1)) = sys_path w1.
Proof.
  intros Hd w1. rewrite run_python_module_sys_path, Hd.
  unfold w1. rewrite run_python_module_sys_path. unfold add_dir.
  destruct (existsb (pystr_eqb (module_dir env file_path)) (sys_path w)) eqn:E.
  - now rewrite E.
  - simpl. now rewrite pystr_eqb_refl.
Qed.

Lemma second_call_keeps_search_path_witness :
  module_dir linux guarded_py = module_dir linux hello_py /\
  sys_path (snd (run_python_module linux guarded_py
                   (snd (run_python_module linux hello_py start)))) =
    [lit "/srv/queues"; lit "/opt/runtime"].
Proof.
  assert (H : module_dir linux guarded_py = module_dir linux hello_py)
    by reflexivity.
  split; [exact H|].
  etransitivity;
    [exact (second_call_keeps_search_path linux hello_py guarded_py start H)
    | reflexivity].
Defined.

(** ** Failures of the load step *)

Lemma caught_at_load (env : Env) (a0 file_path : pystr)
    (rest path : list pystr) (e : exc) :
  relay env file_path (fresh path) =
    (Raise e,
     with_sys_path (add_dir (module_dir env file_path) path) (fresh path)) ->
  is_Exception e = true ->
  main env (a0 :: file_path :: rest) (fresh path) =
    (Exit 1,
     {| sys_path := add_dir (module_dir env file_path) path;
        module_ns := None; written := []; stdout_buffer := [];
        stderr := diagnostic e; device := sound |}).
Proof.
  intros Hr He. rewrite main_with_path.
  now rewrite (run_python_module_catches _ _ _ _ _ Hr He).
Qed.

(** X3.  When the importer finds no loader for the path, the process exits
    with status 1 and the diagnostic ["Could not load module from "]
    followed by the path; nothing is sent and no module code has run, but
    the search path has already gained the directory of the path. *)
Theorem path_without_loader_reported
    (env : Env) (a0 file_path : pystr) (rest path : list pystr) :
  spec_has_loader env (module_name env file_path) file_path = false ->
  let out := main env (a0 :: file_path :: rest) (fresh path) in
  fst out = Exit 1 /\
  stderr (snd out) =
    lit "Error running Python module: Could not load module from "
    ++ file_path ++ [NL] /\
  written (snd out) = [] /\
  module_ns (snd out) = None /\
  In (module_dir env file_path) (sys_path (snd out)).
Proof.
  intros Hs out.
  assert (Hr : relay env file_path (fresh path) =
               (Raise (ImportError
                         (lit "Could not load module from " ++ file_path)),
                with_sys_path (add_dir (module_dir env file_path) path)
                  (fresh path))).
  { rewrite relay_steps. cbv zeta. now rewrite Hs. }
  unfold out. rewrite (caught_at_load _ _ _ _ _ _ Hr eq_refl). cbn [fst snd].
  split; [reflexivity|]. split.
  { cbn [stderr]. unfold diagnostic. cbn [str_of_exc ImportError].
    change (lit "Error running Python module: Could not load module from ")
      with (lit "Error running Python module: "
            ++ lit "Could not load module from ").
    now rewrite <- !app_assoc. }
  split; [reflexivity|]. split; [reflexivity|].
  cbn [sys_path]. unfold add_dir.
  destruct (existsb (pystr_eqb (module_dir env file_path)) path) eqn:E.
  - now apply existsb_pystr_In.
  - now left.
Qed.

Lemma path_without_loader_reported_witness :
  spec_has_loader loaderless (module_name loaderless (lit "/srv/notes"))
    (lit "/srv/notes") = false /\
  fst (main loaderless [script; lit "/srv/notes"] start) = Exit 1 /\
  stderr (snd (main loaderless [script; lit "/srv/notes"] start)) =
    lit "Error running Python module: Could not load module from /srv/notes"
    ++ [NL] /\
  written (snd (main loaderless [script; lit "/srv/notes"] start)) = [] /\
  module_ns (snd (main loaderless [script; lit "/srv/notes"] start)) = None.
Proof.
  assert (H : spec_has_loader loaderless
                (module_name loaderless (lit "/srv/notes")) (lit "/srv/notes")
              = false) by reflexivity.
  split; [exact H|].
  destruct (path_without_loader_reported
              loaderless script (lit "/srv/notes") [] search_path H)
    as [Hexit [Hs [Hw [Hm _]]]].
  split; [exact Hexit|]. split; [|split; [exact Hw | exact Hm]].
  etransitivity; [exact Hs | reflexivity].
Defined.

(** X4.  When the worker's file cannot be run (it is missing, does not
    parse, or its top-level code raises an exception deriving from
    [Exception]), the process exits with status 1 and prints that
    exception's message as the diagnostic; nothing is sent, the module is
    dropped and [config] is never looked at. *)
Theorem failing_worker_reported
    (env : Env) (a0 file_path : pystr) (rest path : list pystr) (e : exc) :
  spec_has_loader env (module_name env file_path) file_path = true ->
  exec_module env (add_dir (module_dir env file_path) path)
    (basename env (module_dir env file_path)) file_path = Raise e ->
  is_Exception e = true ->
  let out := main env (a0 :: file_path :: rest) (fresh path) in
  fst out = Exit 1 /\
  stderr (snd out) =
    lit "Error running Python module: " ++ str_of_exc e ++ [NL] /\
  written (snd out) = [] /\
  module_ns (snd out) = None.
Proof.
  intros Hs Hx He out.
  assert (Hr : relay env file_path (fresh path) =
               (Raise e,
                with_sys_path (add_dir (module_dir env file_path) path)
                  (fresh path))).
  { rewrite relay_steps. cbv zeta. rewrite Hs.
    change (sys_path (with_sys_path ?p _)) with p.
    change (sys_path (fresh path)) with path. now rewrite Hx. }
  unfold out. rewrite (caught_at_load _ _ _ _ _ _ Hr He).
  repeat split.
Qed.

Lemma failing_worker_reported_witness :
  fst (main linux [script; lit "nothing.py"] start) = Exit 1 /\
  stderr (snd (main linux [script; lit "nothing.py"] start)) =
    lit "Error running Python module: [Errno 2] No such file or directory: 'nothing.py'"
    ++ [NL] /\
  written (snd (main linux [script; lit "nothing.py"] start)) = [].
Proof.
  destruct (failing_worker_reported linux script (lit "nothing.py") []
              search_path
              (Exception (lit "FileNotFoundError")
                 (lit "[Errno 2] No such file or directory: 'nothing.py'"))
              eq_refl eq_refl eq_refl) as [Hexit [Hs [Hw _]]].
  split; [exact Hexit|]. split; [|exact Hw].
  etransitivity; [exact Hs | reflexivity].
Defined.

(** ** What is deleted and what is not *)

Lemma written_as_image (d : pydict) (ms : list (pystr * json))
    (item : pykey * pyval) :
  Forall2 written_as d ms -> In item d ->
  exists member, In member ms /\ written_as item member.
Proof.
  induction 1 as [|it m d' ms' Hit _ IH]; intros Hin; [contradiction|].
  destruct Hin as [->|Hin].
  - exists m. split; [now left | exact Hit].
  - destruct (IH Hin) as [m' [Hm' Hw]]. exists m'. split; [now right | exact Hw].
Qed.

(** X5.  Only the top-level [middleware] entry is deleted.  A dictionary
    stored under another key keeps a [middleware] key of its own: it stays
    in the module's [config], and the line that is sent has a member of that
    name inside the nested object. *)
Theorem nested_middleware_is_relayed
    (env : Env) (a0 file_path : pystr) (rest path : list pystr)
    (ns : namespace) (d inner : pydict) (k : pystr) (v : pyval)
    (members : list (pystr * json)) (s : sink) :
  loads env file_path path ns ->
  ns_get CONFIG ns = Some (PyDict d) ->
  In (KStr k, PyDict inner) d ->
  k <> MIDDLEWARE ->
  In (KStr MIDDLEWARE, v) inner ->
  to_members (dict_del MIDDLEWARE d) = Ok members ->
  channel env = Ok s ->
  let out := main env (a0 :: file_path :: rest) (fresh path) in
  written (snd out) = [(s, render (JObj members) ++ [NL])] /\
  (exists ms j,
     In (k, JObj ms) members /\ In (MIDDLEWARE, j) ms /\ to_json v = Ok j) /\
  (exists d',
     ns_get CONFIG (the_module (snd out)) = Some (PyDict d') /\
     In (KStr k, PyDict inner) d').
Proof.
  intros Hl Hc Hin Hk Hinner Hm Hs out.
  assert (Hkept : In (KStr k, PyDict inner) (dict_del MIDDLEWARE d)).
  { apply in_dict_del. split; [exact Hin|]. intros [= E]. now apply Hk. }
  pose proof (main_loaded env a0 file_path rest path ns _ Hl Hc) as H.
  cbv zeta in H. fold out in H. cbn [clean] in H.
  rewrite to_json_dict, Hm, Hs in H.
  split; [now rewrite H|]. split.
  - pose proof (to_members_written_as _ _ Hm) as Hall.
    destruct (written_as_image _ _ _ Hall Hkept) as [[n j'] [Hmem [Hn Hj']]].
    cbn [fst snd key_name] in Hn, Hj'. injection Hn as <-.
    rewrite to_json_dict in Hj'.
    destruct (to_members inner) as [ms|] eqn:Ems; [|discriminate].
    injection Hj' as <-.
    pose proof (to_members_written_as _ _ Ems) as Hall'.
    destruct (written_as_image _ _ _ Hall' Hinner) as [[n j] [Hmem' [Hn Hj]]].
    cbn [fst snd key_name] in Hn, Hj. injection Hn as <-.
    now exists ms, j.
  - exists (dict_del MIDDLEWARE d). split; [|exact Hkept].
    rewrite H. cbn [snd relayed the_module module_ns clean].
    apply ns_get_set_same.
Qed.

Lemma nested_middleware_is_relayed_witness :
  written
    (snd (main (serving (lit "Linux") [(NODE_CHANNEL_FD, lit "3")] layered_ns)
            [script; hello_py] start)) =
  [(Descriptor 3,
    render (JObj [(lit "queue", JStr (lit "x"));
                  (lit "flow",
                   JObj [(lit "step", JStr (lit "a"));
                         (lit "middleware", JStr (lit "log"))])])
    ++ [NL])].
Proof.
  assert (Hl : loads (serving (lit "Linux") [(NODE_CHANNEL_FD, lit "3")]
                        layered_ns) hello_py search_path layered_ns)
    by (split; reflexivity).
  assert (Hin : In (KStr (lit "flow"),
                    PyDict [ (KStr (lit "step"), PyStr (lit "a"));
                             (KStr (lit "middleware"), PyStr (lit "log")) ])
                   layered_config)
    by (right; right; left; reflexivity).
  assert (Hne : lit "flow" <> MIDDLEWARE) by discriminate.
  assert (Hinner : In (KStr MIDDLEWARE, PyStr (lit "log"))
                      [ (KStr (lit "step"), PyStr (lit "a"));
                        (KStr (lit "middleware"), PyStr (lit "log")) ])
    by (right; left; reflexivity).
  exact (proj1 (nested_middleware_is_relayed
                  _ script hello_py [] search_path layered_ns layered_config
                  _ (lit "flow") _ _ (Descriptor 3)
                  Hl eq_refl Hin Hne Hinner eq_refl eq_refl)).
Defined.

(** ** The two channels *)

Lemma channel_sink (env : Env) (s : sink) :
  channel env = Ok s ->
  if on_windows env then s = Stdout
  else exists value fd,
         environ_get env NODE_CHANNEL_FD = Some value /\
         py_int env value = Some fd /\ s = Descriptor fd.
Proof.
  unfold channel. destruct (on_windows env).
  - destruct (stdout_fault env); [discriminate | now intros [= <-]].
  - destruct (environ_get env NODE_CHANNEL_FD) as [value|]; [|discriminate].
    destruct (py_int env value) as [fd|] eqn:E; [|discriminate].
    destruct (fd_fault env fd); [discriminate|]. intros [= <-].
    now exists value, fd.
Qed.

(** X6.  The platform decides where the line goes.  On Windows whatever is
    written goes to standard output.  Elsewhere whatever is written goes to
    the descriptor that [int] reads from [NODE_CHANNEL_FD], and standard
    output is left alone: nothing is put in its buffer. *)
Theorem sink_follows_platform (env : Env) (argv path : list pystr) :
  let out := main env argv (fresh path) in
  (forall s data,
     In (s, data) (written (snd out)) ->
     if on_windows env then s = Stdout
     else exists value fd,
            environ_get env NODE_CHANNEL_FD = Some value /\
            py_int env value = Some fd /\ s = Descriptor fd) /\
  (on_windows env = false -> stdout_buffer (snd out) = []).
Proof.
  intros out. unfold out.
  destruct (argv_cases argv) as [Hshort | [a0 [fp [rest ->]]]].
  { rewrite (main_without_path _ _ _ Hshort). split; [intros s data []|].
    reflexivity. }
  pose proof (main_by_first_error env a0 fp rest path) as H. cbv zeta in H.
  destruct (first_error env fp path) as [e|].
  - destruct H as [w1 [_ [Hw [Hb _]]]]. split; [|exact Hb].
    intros s data Hin. rewrite Hw in Hin. contradiction.
  - destruct H as [ns [cfg [s0 [j [_ [_ [_ [Hs [_ Hout]]]]]]]]].
    rewrite Hout. cbn [snd relayed written stdout_buffer]. split; [|reflexivity].
    intros s data [Hin|[]]. injection Hin as <- _.
    now apply channel_sink.
Qed.

Lemma send_message_ignores_descriptors (env : Env)
    (vars : list (pystr * pystr)) (fault : Z -> option pystr)
    (v : pyval) (w : World) :
  on_windows env = true ->
  send_message (with_channel_setup vars fault env) v w = send_message env v w.
Proof.
  intros Hw. unfold send_message, on_windows in *. cbn [platform_system with_channel_setup].
  rewrite Hw. reflexivity.
Qed.

(** X7.  On Windows neither the environment nor the descriptor table plays
    a part: with any other environment and any other state of the
    descriptors the process ends in the same way, having written the same
    bytes. *)
Theorem windows_ignores_descriptor_channel
    (env : Env) (vars : list (pystr * pystr)) (fault : Z -> option pystr)
    (argv : list pystr) (w : World) :
  on_windows env = true ->
  main (with_channel_setup vars fault env) argv w = main env argv w.
Proof.
  intros Hw.
  destruct (argv_cases argv) as [Hshort | [a0 [fp [rest ->]]]].
  { now rewrite !(main_without_path _ _ _ Hshort). }
  rewrite !main_with_path.
  assert (Hr : relay (with_channel_setup vars fault env) fp w = relay env fp w).
  { rewrite !relay_steps. cbv zeta.
    unfold module_name, module_dir.
    cbn [with_channel_setup spec_has_loader exec_module splitext_root basename
         dirname abspath].
    destruct (spec_has_loader env _ fp); [|reflexivity].
    destruct (exec_module env _ _ fp) as [ns|e]; [|reflexivity].
    destruct (ns_get CONFIG ns) as [cfg|]; [|reflexivity].
    now apply send_message_ignores_descriptors. }
  unfold run_python_module, try_except_Exception. now rewrite Hr.
Qed.

Lemma windows_ignores_descriptor_channel_witness :
  on_windows windows = true /\
  main (with_channel_setup [(NODE_CHANNEL_FD, lit "abc")] (fun _ => None)
          windows) [script; hello_py] start =
  main windows [script; hello_py] start.
Proof.
  assert (H : on_windows windows = true) by reflexivity.
  split; [exact H|].
  exact (windows_ignores_descriptor_channel windows _ _ _ start H).
Defined.

(** ** The [middleware] entry and the wire *)

(** X11.  The value stored under [middleware] has no influence on what the
    parent sees.  Two workers whose [config] dictionaries are the same once
    [middleware] is taken out, relayed over the same channel, end with the
    same exit status, the same bytes sent and the same error stream,
    whether one of them has a [middleware] entry or both have different
    ones. *)
Theorem middleware_does_not_show
    (env env' : Env) (a0 a0' file_path file_path' : pystr)
    (rest rest' path path' : list pystr) (ns ns' : namespace)
    (d d' : pydict) :
  loads env file_path path ns ->
  ns_get CONFIG ns = Some (PyDict d) ->
  loads env' file_path' path' ns' ->
  ns_get CONFIG ns' = Some (PyDict d') ->
  dict_del MIDDLEWARE d = dict_del MIDDLEWARE d' ->
  channel env = channel env' ->
  let out := main env (a0 :: file_path :: rest) (fresh path) in
  let out' := main env' (a0' :: file_path' :: rest') (fresh path') in
  fst out = fst out' /\
  written (snd out) = written (snd out') /\
  stderr (snd out) = stderr (snd out').
Proof.
  intros Hl Hc Hl' Hc' Hd Hch out out'.
  pose proof (main_loaded env a0 file_path rest path ns _ Hl Hc) as H.
  pose proof (main_loaded env' a0' file_path' rest' path' ns' _ Hl' Hc') as H'.
  cbv zeta in H, H'. fold out in H. fold out' in H'.
  cbn [clean] in H, H'. rewrite <- Hd, <- Hch in H'.
  destruct (to_json (PyDict (dict_del MIDDLEWARE d))) as [j|e].
  - destruct (channel env) as [s|e].
    + rewrite H, H'. repeat split.
    + destruct H as [-> [-> ->]]. destruct H' as [-> [-> ->]]. repeat split.
  - assert (Hx : fst out = Exit 1 /\ stderr (snd out) = diagnostic e /\
                 written (snd out) = []) by (destruct (channel env); exact H).
    assert (Hx' : fst out' = Exit 1 /\ stderr (snd out') = diagnostic e /\
                  written (snd out') = []) by (destruct (channel env); exact H').
    destruct Hx as [-> [-> ->]]. destruct Hx' as [-> [-> ->]]. repeat split.
Qed.

Lemma middleware_does_not_show_witness :
  written
    (snd (main (serving (lit "Linux") [(NODE_CHANNEL_FD, lit "3")]
                  Playground.guarded_ns) [script; guarded_py] start)) =
  written
    (snd (main (serving (lit "Linux") [(NODE_CHANNEL_FD, lit "3")] plain_ns)
            [script; hello_py] start)).
Proof.
  assert (Hl : loads (serving (lit "Linux") [(NODE_CHANNEL_FD, lit "3")]
                        Playground.guarded_ns) guarded_py search_path
                 Playground.guarded_ns) by (split; reflexivity).
  assert (Hl' : loads (serving (lit "Linux") [(NODE_CHANNEL_FD, lit "3")]
                         plain_ns) hello_py search_path plain_ns)
    by (split; reflexivity).
  exact (proj1 (proj2 (middleware_does_not_show
                         _ _ script script guarded_py hello_py [] []
                         search_path search_path _ _ Playground.guarded_config
                         [ (KStr (lit "queue"), PyStr (lit "x")) ]
                         Hl eq_refl Hl' eq_refl eq_refl eq_refl))).
Defined.

(** ** The sample worker's [run] *)

Lemma join_Forall (P : Z -> Prop) (sep : pystr) (parts : list pystr) :
  Forall P sep -> Forall (Forall P) parts -> Forall P (join sep parts).
Proof.
  intros Hsep Hparts. induction Hparts as [|p rest Hp Hrest IH]; cbn [join].
  - constructor.
  - destruct rest as [|q rest']; [exact Hp|].
    apply Forall_app; split; [exact Hp|].
    apply Forall_app; split; [exact Hsep | exact IH].
Qed.

Lemma printable_is_no_break (s : pystr) :
  Forall printable_ascii s -> Forall (fun c => c <> NL) s.
Proof.
  apply Forall_impl. unfold printable_ascii, NL. intros c H. lia.
Qed.

Lemma lit_no_break (s : string) :
  forallb (fun c => negb (c =? NL)) (lit s) = true ->
  Forall (fun c => c <> NL) (lit s).
Proof.
  intros H. apply Forall_forall. intros c Hc.
  rewrite forallb_forall in H. specialize (H c Hc).
  apply negb_true_iff, Z.eqb_neq in H. exact H.
Qed.

Lemma hex_no_break (n : Z) : hex_digit n <> NL.
Proof.
  pose proof (hex_digit_printable n) as H. unfold printable_ascii, NL in *. lia.
Qed.

Lemma repr_char_no_break (env : Env) (quote c : Z) :
  quote <> NL -> Forall (fun x => x <> NL) (repr_char env quote c).
Proof.
  intros Hq. unfold repr_char, hex8, hex4, hex2.
  repeat match goal with
         | |- context [if ?b then _ else _] => destruct b eqn:?
         end;
    repeat (first [apply Forall_cons | apply Forall_nil | apply Forall_app; split]);
    try apply hex_no_break; unfold NL in *; try lia.
Qed.

Lemma py_repr_no_break (env : Env) (s : pystr) :
  Forall (fun c => c <> NL) (py_repr env s).
Proof.
  unfold py_repr.
  set (quote := if existsb (Z.eqb 39) s && negb (existsb (Z.eqb 34) s)
                then 34 else 39).
  assert (Hq : quote <> NL).
  { unfold quote, NL. destruct (existsb (Z.eqb 39) s && negb (existsb (Z.eqb 34) s)); lia. }
  clearbody quote.
  apply Forall_app; split; [now repeat constructor|].
  apply Forall_app; split; [|now repeat constructor].
  induction s as [|c r IH]; cbn [flat_map]; [constructor|].
  apply Forall_app; split; [now apply repr_char_no_break | exact IH].
Qed.

Lemma int_repr_no_break (n : Z) : Forall (fun c => c <> NL) (int_repr n).
Proof. apply printable_is_no_break, int_repr_printable. Qed.

Lemma repr_float_no_break (f : pyfloat) :
  Forall (fun c => c <> NL) (Hello.repr_float f).
Proof.
  destruct f as [r| | |]; cbn [Hello.repr_float]; try (now apply lit_no_break).
  apply printable_is_no_break, (float_json_printable (Finite r)).
Qed.

Lemma repr_val_no_break (env : Env) (object_repr : pystr -> pystr)
    (v : pyval) :
  (forall t, ~ In NL (object_repr t)) ->
  Forall (fun c => c <> NL) (Hello.repr_val env object_repr v).
Proof.
  intros Hobj.
  assert (Hopaque : forall t, Forall (fun c => c <> NL) (object_repr t)).
  { intros t. apply Forall_forall. intros c Hc ->. exact (Hobj t Hc). }
  assert (Hseq : forall l,
            Forall (fun x => Forall (fun c => c <> NL)
                               (Hello.repr_val env object_repr x)) l ->
            Forall (fun c => c <> NL)
              (join (lit ", ") (map (Hello.repr_val env object_repr) l))).
  { intros l Hl. apply join_Forall; [now apply lit_no_break|].
    induction Hl; cbn [map]; constructor; assumption. }
  induction v using pyval_nested_ind; cbn [Hello.repr_val].
  - now apply lit_no_break.
  - destruct b; now apply lit_no_break.
  - apply int_repr_no_break.
  - apply repr_float_no_break.
  - apply py_repr_no_break.
  - apply Forall_app; split; [now apply lit_no_break|].
    apply Forall_app; split; [now apply Hseq | now apply lit_no_break].
  - destruct l as [|x [|y r]].
    + apply Forall_app; split; [now apply lit_no_break|].
      apply Forall_app; split; [constructor | now apply lit_no_break].
    + inversion H as [|? ? Hx _]; subst.
      apply Forall_app; split; [now apply lit_no_break|].
      apply Forall_app; split; [exact Hx | now apply lit_no_break].
    + apply Forall_app; split; [now apply lit_no_break|].
      apply Forall_app; split; [now apply Hseq | now apply lit_no_break].
  - apply Forall_app; split; [now apply lit_no_break|].
    apply Forall_app; split; [|now apply lit_no_break].
    apply join_Forall; [now apply lit_no_break|].
    induction H as [|[k x] r Hx Hr IH]; cbn [map]; constructor; [|exact IH].
    apply Forall_app; split.
    + destruct k as [s|n|[|]|f| |t]; cbn [fst Hello.repr_key];
        [ apply py_repr_no_break | apply int_repr_no_break
        | now apply lit_no_break | now apply lit_no_break
        | apply repr_float_no_break
        | now apply lit_no_break | apply Hopaque ].
    + apply Forall_app; split; [now apply lit_no_break | exact Hx].
  - apply Hopaque.
Qed.

(** X12.  [run] prints one record on standard output and returns the
    dictionary with the one item [status], valued [ok], or, when the stream
    cannot encode the text, raises the [UnicodeEncodeError] of [print]
    without printing or returning anything.  A record printed for a payload
    that is not a [str] is a single line, since [repr] escapes the line
    breaks of the strings inside it (the text of an object of another type
    is taken to have none).  A [str] payload is printed as it is, so the
    record has one line more for each line break in the payload. *)
Theorem run_prints_one_record
    (env : Env) (object_repr object_str : pystr -> pystr)
    (stdout_rejects : pystr -> option pystr)
    (payload : pyval) (ctx : option pyval) :
  (forall t, ~ In NL (object_repr t)) ->
  (forall t, ~ In NL (object_str t)) ->
  let text :=
    lit "Processing hello with payload="
    ++ Hello.str_val env object_repr object_str payload in
  match stdout_rejects text with
  | Some msg =>
      Hello.run env object_repr object_str stdout_rejects payload ctx =
        Raise (UnicodeEncodeError msg)
  | None =>
      Hello.run env object_repr object_str stdout_rejects payload ctx =
        Ok (text ++ [NL], PyDict [(KStr (lit "status"), PyStr (lit "ok"))]) /\
      match payload with
      | PyStr s =>
          count_occ Z.eq_dec (text ++ [NL]) NL = S (count_occ Z.eq_dec s NL)
      | _ => one_line (text ++ [NL])
      end
  end.
Proof.
  intros Hrepr Hstr text.
  assert (Hline : forall body,
            Forall (fun c => c <> NL) body ->
            one_line ((lit "Processing hello with payload=" ++ body) ++ [NL])).
  { intros body Hb.
    exists (lit "Processing hello with payload=" ++ body).
    split; [reflexivity|].
    intros Hin. apply in_app_or in Hin as [Hin|Hin].
    - vm_compute in Hin. intuition discriminate.
    - rewrite Forall_forall in Hb. now apply (Hb NL Hin). }
  pose proof (repr_val_no_break env object_repr payload Hrepr) as Hval.
  unfold Hello.run, Hello.record. fold text.
  destruct (stdout_rejects text) as [msg|]; [reflexivity|].
  split; [reflexivity|]. unfold text.
  destruct payload; cbn [Hello.str_val]; try (apply Hline; exact Hval).
  - rewrite !count_occ_app. cbn [count_occ].
    destruct (Z.eq_dec NL NL) as [_|Hn]; [|contradiction].
    replace (count_occ Z.eq_dec (lit "Processing hello with payload=") NL)
      with 0%nat by reflexivity.
    lia.
  - apply Hline. apply Forall_forall. intros c Hc ->.
    exact (Hstr type_name Hc).
Qed.

Lemma run_prints_one_record_witness :
  Hello.run linux (fun _ => lit "<object>") (fun _ => lit "<object>")
    (fun text => match utf8_encode text with
                 | Some _ => None
                 | None => Some (lit "surrogates not allowed")
                 end)
    (PyStr [55296]) None =
  Raise (UnicodeEncodeError (lit "surrogates not allowed")).
Proof.
  assert (H : forall t : pystr, ~ In NL (lit "<object>")).
  { intros _ Hin. vm_compute in Hin. intuition discriminate. }
  exact (run_prints_one_record linux (fun _ => lit "<object>")
           (fun _ => lit "<object>")
           (fun text => match utf8_encode text with
                        | Some _ => None
                        | None => Some (lit "surrogates not allowed")
                        end)
           (PyStr [55296]) None H H).
Defined.
